(** * AI Model Platform API: the request handlers of [main.py] over a
    document store, and the properties its specification states.

    The handlers are embedded as functions in a small state-and-exception
    monad.  The state is the process-wide [db] handle together with a
    journal of the writes the store has executed. *)

From Stdlib Require Import ZArith NArith Ascii String.
From stdpp Require Import gmap strings list fin_maps pretty.

Set Warnings "-register-all".
Local Open Scope Z_scope.

(** ** Python strings

    A [str] is embedded as the sequence of its characters, one [ascii] for
    each. *)

Module PyStr.

Fixpoint length (s : string) : nat :=
  match s with
  | EmptyString => 0%nat
  | String _ s' => S (length s')
  end.

Fixpoint skip (n : nat) (s : string) : string :=
  match n, s with
  | O, _ => s
  | S _, EmptyString => EmptyString
  | S n', String _ s' => skip n' s'
  end.

Fixpoint upto (n : nat) (s : string) : string :=
  match n, s with
  | O, _ => EmptyString
  | S _, EmptyString => EmptyString
  | S n', String c s' => String c (upto n' s')
  end.

(** [s[:n]] for a literal [n >= 0]. *)
Definition slice_to (n : nat) (s : string) : string := upto n s.

(** [s[-n:]] for a literal [n > 0]: the last [n] characters, or all of
    [s] when it is shorter. *)
Definition slice_last (n : nat) (s : string) : string :=
  skip (length s - n) s.

Definition lower_char (c : ascii) : ascii :=
  let n := N_of_ascii c in
  if ((65 <=? n) && (n <=? 90))%N then ascii_of_N (n + 32) else c.

(** [str.lower] on the ASCII range. *)
Fixpoint lower (s : string) : string :=
  match s with
  | EmptyString => EmptyString
  | String c s' => String (lower_char c) (lower s')
  end.

(** [sub in s] *)
Definition contains (sub s : string) : Prop :=
  exists pre post, s = pre +:+ sub +:+ post.

(** Truth value of a string: empty is false. *)
Definition truthy (s : string) : bool :=
  match s with EmptyString => false | _ => true end.

(** [x or d] for [x : Optional[str]]. *)
Definition or_else (x : option string) (d : string) : string :=
  match x with
  | Some s => if truthy s then s else d
  | None => d
  end.

End PyStr.

(** ** Storage identifiers ([bson.ObjectId])

    A stored identifier is twelve bytes; it is kept as the number those
    bytes spell in base 256, and its string form is 24 lowercase hexadecimal
    digits.  The constructor takes a string of 24 characters and reads it
    with [bytes.fromhex], which skips ASCII whitespace between the pairs of
    digits: a string of 24 hexadecimal digits gives twelve bytes, one with
    whitespace gives fewer, and the constructor accepts both. *)

Module ObjectId.

Definition t := N.

Definition modulus : N := 16 ^ 24.

Definition hex_digit (d : N) : ascii :=
  if (d <? 10)%N then ascii_of_N (48 + d) else ascii_of_N (87 + d).

Definition hex_value (c : ascii) : option N :=
  let n := N_of_ascii c in
  if ((48 <=? n) && (n <=? 57))%N then Some (n - 48)%N
  else if ((97 <=? n) && (n <=? 102))%N then Some (n - 87)%N
  else if ((65 <=? n) && (n <=? 70))%N then Some (n - 55)%N
  else None.

(** The [k] low digits of [n], most significant first, in front of [acc]. *)
Fixpoint hex_be (k : nat) (n : N) (acc : string) : string :=
  match k with
  | O => acc
  | S k' => hex_be k' (n / 16)%N (String (hex_digit (n mod 16)%N) acc)
  end.

Fixpoint hex_parse (s : string) (acc : N) : option N :=
  match s with
  | EmptyString => Some acc
  | String c s' =>
      match hex_value c with
      | Some d => hex_parse s' (acc * 16 + d)%N
      | None => None
      end
  end.

(** [str(oid)] *)
Definition to_str (o : t) : string := hex_be 24 o EmptyString.

(** The twelve-byte identifier that a string of 24 hexadecimal digits
    spells. *)
Definition of_str (s : string) : option t :=
  if Nat.eqb (PyStr.length s) 24 then hex_parse s 0%N else None.

(** ASCII whitespace, as [bytes.fromhex] skips it. *)
Definition is_space (c : ascii) : bool :=
  let n := N_of_ascii c in
  ((9 <=? n) && (n <=? 13) || (n =? 32))%N.

(** [bytes.fromhex(s)]: pairs of hexadecimal digits, with whitespace
    allowed in front of each pair and at the end; [None] stands for
    [ValueError]. *)
Fixpoint fromhex (s : string) : option (list N) :=
  match s with
  | EmptyString => Some []
  | String c s' =>
      if is_space c then fromhex s'
      else
        match hex_value c, s' with
        | Some hi, String c' s'' =>
            match hex_value c' with
            | Some lo => cons (hi * 16 + lo)%N <$> fromhex s''
            | None => None
            end
        | _, _ => None
        end
  end.

(** The number that bytes spell in base 256, in front of which is [acc]. *)
Definition number_of (bytes : list N) (acc : N) : N :=
  fold_left (fun a b => (a * 256 + b)%N) bytes acc.

(** What the constructor builds: an identifier of twelve bytes, or the
    bytes themselves when they are fewer. *)
Inductive built : Type :=
| Full (o : t)
| Short (bytes : list N).

(** [ObjectId(s)]: [None] stands for [bson.errors.InvalidId]. *)
Definition construct (s : string) : option built :=
  if Nat.eqb (PyStr.length s) 24 then
    match fromhex s with
    | Some bytes =>
        Some (if Nat.eqb (List.length bytes) 12
              then Full (number_of bytes 0)
              else Short bytes)
    | None => None
    end
  else None.

Fixpoint all_hex (s : string) : bool :=
  match s with
  | EmptyString => true
  | String c s' => bool_decide (is_Some (hex_value c)) && all_hex s'
  end.

(** A well-formed identifier string, "a 24-character hex ObjectId": 24
    hexadecimal digits. *)
Definition well_formed (s : string) : bool :=
  Nat.eqb (PyStr.length s) 24 && all_hex s.

(** [ObjectId()]: a new identifier from twelve bytes of clock, process
    and counter data, here the number [entropy] cut to twelve bytes. *)
Definition generate (entropy : N) : t := (entropy mod modulus)%N.

End ObjectId.

(** ** Values and documents *)

(** A JSON-like Python value ([Any]), and the identifiers the store adds.
    Floating point numbers are left out: no handler computes with them. *)
Inductive value : Type :=
| VNone
| VBool (b : bool)
| VInt (z : Z)
| VStr (s : string)
| VList (l : list value)
| VDict (d : list (string * value))
| VObjectId (o : ObjectId.t).

(** A Python [dict] with string keys. *)
Abbreviation document := (gmap string value).

(** Truth value of a dict: empty is false. *)
Definition dict_truthy {V} (d : gmap string V) : bool :=
  negb (Nat.eqb (size d) 0).

(** Truth value of [Optional[dict]]. *)
Definition opt_dict_truthy {V} (d : option (gmap string V)) : bool :=
  match d with
  | Some m => dict_truthy m
  | None => false
  end.

Definition opt_str (x : option string) : value :=
  match x with
  | Some s => VStr s
  | None => VNone
  end.

(** ** Exceptions and the handler monad *)

Inductive exn : Type :=
| HTTPException (status_code : Z) (detail : string)
| ValidationError (field : string)
| InvalidId (given : string)
| DuplicateKeyError (o : ObjectId.t)
| DatabaseNotAvailable.

Inductive result (E A : Type) : Type :=
| Ok (a : A)
| Raise (e : E).
Arguments Ok {E A} a.
Arguments Raise {E A} e.

(** One collection: the documents by identifier, each kept without its
    [_id] entry, which reading adds back. *)
Abbreviation collection := (gmap N (gmap string value)).

(** The [pymongo] database behind [db]. *)
Record Database : Type := {
  db_name : string;
  db_collections : gmap string collection
}.

(** A write the store has executed. *)
Inductive write : Type :=
| Inserted (coll : string) (o : ObjectId.t) (doc : document)
| Updated (coll : string) (o : ObjectId.t) (fields : list (string * value)).

(** The state a handler runs in: the module-level [db] ([None] when the
    connection could not be set up) and, as a history variable, the journal
    of the writes the store has executed. *)
Record world : Type := {
  db : option Database;
  journal : list write
}.

Definition handler (A : Type) : Type := world -> result exn A * world.

Definition ret {A} (a : A) : handler A := fun w => (Ok a, w).

Definition raise {A} (e : exn) : handler A := fun w => (Raise e, w).

Definition bind {A B} (c : handler A) (k : A -> handler B) : handler B :=
  fun w =>
    match c w with
    | (Ok a, w') => k a w'
    | (Raise e, w') => (Raise e, w')
    end.

Declare Scope handler_scope.
Delimit Scope handler_scope with handler.
Notation "'let*' x ':=' c 'in' k" := (bind c (fun x => k))
  (at level 10, x name, c at level 100, k at level 200) : handler_scope.
Notation "'run' c 'then' k" := (bind c (fun _ => k))
  (at level 10, c at level 100, k at level 200) : handler_scope.
Local Open Scope handler_scope.

Definition lift {A} (r : result exn A) : handler A := fun w => (r, w).

(** ** The store ([pymongo]) *)

(** [db[name]] *)
Definition get_collection (d : Database) (name : string) : collection :=
  default ∅ (db_collections d !! name).

Definition with_id (o : ObjectId.t) (fields : document) : document :=
  <["_id" := VObjectId o]> fields.

Definition put (d : Database) (name : string) (o : ObjectId.t)
    (fields : document) : Database :=
  {| db_name := db_name d;
     db_collections :=
       <[name := <[o := fields]> (get_collection d name)]> (db_collections d) |}.

(** [ObjectId(s)] *)
Definition ObjectId_new (s : string) : handler ObjectId.built :=
  match ObjectId.construct s with
  | Some p => ret p
  | None => raise (InvalidId s)
  end.

(** [db[name].find_one({"_id": o})] *)
Definition find_one (d : Database) (name : string) (o : ObjectId.t)
    : option document :=
  with_id o <$> (get_collection d name !! o).

(** The stored fields a built identifier selects: the stored identifiers
    have twelve bytes, so a shorter one selects nothing. *)
Definition lookup_by (d : Database) (name : string) (p : ObjectId.built)
    : option document :=
  match p with
  | ObjectId.Full o => get_collection d name !! o
  | ObjectId.Short _ => None
  end.

(** [db[name].find_one({"_id": p})] for the identifier [p] a handler
    built. *)
Definition find_one_by (d : Database) (name : string) (p : ObjectId.built)
    : option document :=
  match p with
  | ObjectId.Full o => find_one d name o
  | ObjectId.Short _ => None
  end.

(** [db[name].insert_one(doc)] for a document without [_id]: the driver
    draws the identifier, and the server refuses one that is taken. *)
Definition insert_one (d : Database) (name : string) (doc : document)
    (entropy : N) : handler ObjectId.t :=
  fun w =>
    let o := ObjectId.generate entropy in
    match get_collection d name !! o with
    | Some _ => (Raise (DuplicateKeyError o), w)
    | None =>
        (Ok o, {| db := Some (put d name o doc);
                  journal := journal w ++ [Inserted name o doc] |})
    end.

Definition set_fields (fields : list (string * value)) (doc : document)
    : document :=
  foldr (fun kv acc => <[kv.1 := kv.2]> acc) doc fields.

(** [db[name].update_one({"_id": o}, {"$set": fields})]: nothing happens
    when no document has the identifier. *)
Definition update_one (d : Database) (name : string) (o : ObjectId.t)
    (fields : list (string * value)) : handler unit :=
  fun w =>
    match get_collection d name !! o with
    | Some doc =>
        (Ok tt, {| db := Some (put d name o (set_fields fields doc));
                   journal := journal w ++ [Updated name o fields] |})
    | None => (Ok tt, w)
    end.

(** [db[name].update_one({"_id": p}, {"$set": fields})] for the identifier
    [p] a handler built. *)
Definition update_one_by (d : Database) (name : string) (p : ObjectId.built)
    (fields : list (string * value)) : handler unit :=
  match p with
  | ObjectId.Full o => update_one d name o fields
  | ObjectId.Short _ => ret tt
  end.

(** [db[name].find().limit(n)] read into a list. *)
Definition find_limit (d : Database) (name : string) (n : nat)
    : list document :=
  take n ((fun p => with_id p.1 p.2) <$> map_to_list (get_collection d name)).

(** [db.list_collection_names()], when the server answers. *)
Definition collection_names (d : Database) : list string :=
  (map_to_list (db_collections d)).*1.

(** ** Record schemas ([schemas.py]) *)

(** The five schema classes; the handlers use the three of the platform,
    the other two only by their names. *)
Inductive schema_class : Type :=
| ClsUser | ClsProduct | ClsModelSpec | ClsDeployment | ClsGenerationJob.

(** [cls.__name__] *)
Definition class_name (c : schema_class) : string :=
  match c with
  | ClsUser => "User"
  | ClsProduct => "Product"
  | ClsModelSpec => "ModelSpec"
  | ClsDeployment => "Deployment"
  | ClsGenerationJob => "GenerationJob"
  end.

Record ModelSpec : Type := {
  ms_name : string;
  ms_prompt : string;
  ms_version : string;
  ms_status : string;
  ms_parameters : option (gmap string value);
  ms_artifacts : option (list string)
}.

Record Deployment : Type := {
  dep_model_id : string;
  dep_name : string;
  dep_url : option string;
  dep_status : string
}.

Record GenerationJob : Type := {
  job_prompt : string;
  job_status : string;
  job_model_id : option string
}.

(** What the handlers use of a [pydantic.BaseModel]: its class and the
    dict of its fields. *)
Class BaseModel (T : Type) : Type := {
  model_class : schema_class;
  model_dump : T -> document
}.

#[export] Instance ModelSpec_model : BaseModel ModelSpec := {|
  model_class := ClsModelSpec;
  model_dump m :=
    {[ "name" := VStr (ms_name m);
       "prompt" := VStr (ms_prompt m);
       "version" := VStr (ms_version m);
       "status" := VStr (ms_status m);
       "parameters" :=
         match ms_parameters m with
         | Some p => VDict (map_to_list p)
         | None => VNone
         end;
       "artifacts" :=
         match ms_artifacts m with
         | Some l => VList (VStr <$> l)
         | None => VNone
         end ]}
|}.

#[export] Instance Deployment_model : BaseModel Deployment := {|
  model_class := ClsDeployment;
  model_dump d :=
    {[ "model_id" := VStr (dep_model_id d);
       "name" := VStr (dep_name d);
       "url" := opt_str (dep_url d);
       "status" := VStr (dep_status d) ]}
|}.

#[export] Instance GenerationJob_model : BaseModel GenerationJob := {|
  model_class := ClsGenerationJob;
  model_dump j :=
    {[ "prompt" := VStr (job_prompt j);
       "status" := VStr (job_status j);
       "model_id" := opt_str (job_model_id j) ]}
|}.

(** Validation of a [str] field: a string passes, and [None], a list or a
    dict is refused by every pydantic version.  Numbers and booleans are
    refused as pydantic 2 does (pydantic 1 turns them into text). *)
Definition validate_str (field : string) (v : value) : result exn string :=
  match v with
  | VStr s => Ok s
  | _ => Raise (ValidationError field)
  end.

(** [ModelSpec(name=..., ...)] with a [name] of any type; the other
    arguments have their field's type at every call. *)
Definition ModelSpec_init (name : value) (prompt version status : string)
    (parameters : gmap string value) (artifacts : list string)
    : result exn ModelSpec :=
  match validate_str "name" name with
  | Ok n =>
      Ok {| ms_name := n; ms_prompt := prompt; ms_version := version;
            ms_status := status; ms_parameters := Some parameters;
            ms_artifacts := Some artifacts |}
  | Raise e => Raise e
  end.

(** ** Document store adapter *)

(** Modelled from the spec: [database.py], with [create_document] and
    [get_documents], is not among the sources.  [create_document] "serializes
    the record's fields (excluding any identifier) and inserts it into the
    named collection; returns the new record's identifier as a string.  Fails
    with a storage error if the underlying connection is unavailable." *)
Definition create_document {T} `{BaseModel T} (collection_name : string)
    (record : T) (entropy : N) : handler string :=
  fun w =>
    match db w with
    | None => (Raise DatabaseNotAvailable, w)
    | Some d =>
        bind (insert_one d collection_name (model_dump record) entropy)
             (fun o => ret (ObjectId.to_str o)) w
    end.

(** Modelled from the spec: [get_documents] "returns up to [limit] records
    from the named collection in storage-defined order; each record includes
    its identifier"; as every operation of the adapter it fails when the
    connection is unavailable. *)
Definition get_documents (collection_name : string) (limit : Z)
    : handler (list document) :=
  fun w =>
    match db w with
    | None => (Raise DatabaseNotAvailable, w)
    | Some d => (Ok (find_limit d collection_name (Z.to_nat limit)), w)
    end.

(** ** API layer ([main.py]) *)

Section Api.

(** [os.environ] *)
Variable environ : gmap string string.

(** [repr] of a list or a dict, which the Python runtime supplies. *)
Variable container_repr : value -> string.

(** [os.getenv(key)] taken as a condition. *)
Definition getenv_truthy (key : string) : bool :=
  match environ !! key with
  | Some s => PyStr.truthy s
  | None => false
  end.

(** [os.getenv(key, fallback)] *)
Definition getenv_default (key fallback : string) : string :=
  default fallback (environ !! key).

(** [str(v)], also what an f-string writes for [{v}]. *)
Definition py_str (v : value) : string :=
  match v with
  | VNone => "None"
  | VBool true => "True"
  | VBool false => "False"
  | VInt z => pretty.pretty z
  | VStr s => s
  | VObjectId o => ObjectId.to_str o
  | VList _ | VDict _ => container_repr v
  end.

(** [if db is None: raise HTTPException(500, "Database not configured")] *)
Definition require_db : handler Database :=
  fun w =>
    match db w with
    | None => (Raise (HTTPException 500 "Database not configured"), w)
    | Some d => (Ok d, w)
    end.

Definition read_root : handler document :=
  ret {[ "message" := VStr "AI Platform backend is live" ]}.

(** [GET /test]: [fault] is the message of the exception that
    [db.list_collection_names()] raises, when the server does not answer. *)
Definition list_collection_names (fault : option string) (d : Database)
    : result string (list string) :=
  match fault with
  | Some msg => Raise msg
  | None => Ok (collection_names d)
  end.

(** The inner [try] block with its [except Exception] clause. *)
Definition test_inner_try (fault : option string) (d : Database)
    (response : document) : result string document :=
  match list_collection_names fault d with
  | Ok collections =>
      Ok (<["database" := VStr "✅ Connected & Working"]>
            (<["collections" := VList (VStr <$> take 10 collections)]>
               response))
  | Raise e =>
      Ok (<["database" :=
              VStr ("⚠️  Connected but Error: " +:+ PyStr.slice_to 50 e)]>
            response)
  end.

(** The outer [try] block; a [pymongo] database has the attribute [name],
    so [db.name] is what line 40 stores. *)
Definition test_outer_try (fault : option string) (conn : option Database)
    (response : document) : result string document * document :=
  match conn with
  | Some d =>
      let response :=
        <["connection_status" := VStr "Connected"]>
          (<["database_name" := VStr (db_name d)]>
             (<["database_url" := VStr "✅ Configured"]>
                (<["database" := VStr "✅ Available"]> response))) in
      match test_inner_try fault d response with
      | Ok response' => (Ok response', response')
      | Raise e => (Raise e, response)
      end
  | None =>
      let response :=
        <["database" := VStr "⚠️  Available but not initialized"]> response in
      (Ok response, response)
  end.

Definition test_database (fault : option string) : handler document :=
  fun w =>
    let response : document :=
      {[ "backend" := VStr "✅ Running";
         "database" := VStr "❌ Not Available";
         "database_url" := VNone;
         "database_name" := VNone;
         "connection_status" := VStr "Not Connected";
         "collections" := VList [] ]} in
    let response :=
      match test_outer_try fault (db w) response with
      | (Ok _, response') => response'
      | (Raise e, response') =>
          <["database" := VStr ("❌ Error: " +:+ PyStr.slice_to 50 e)]>
            response'
      end in
    let response :=
      <["database_url" :=
          VStr (if getenv_truthy "DATABASE_URL" then "✅ Set" else "❌ Not Set")]>
        response in
    let response :=
      <["database_name" :=
          VStr (if getenv_truthy "DATABASE_NAME" then "✅ Set" else "❌ Not Set")]>
        response in
    (Ok response, w).

Definition _collection_name (model_cls : schema_class) : string :=
  PyStr.lower (class_name model_cls).

Definition _to_public (doc : document) : document :=
  if negb (dict_truthy doc) then doc
  else
    match doc !! "_id" with
    | Some v => <["id" := VStr (py_str v)]> (delete "_id" doc)
    | None => doc
    end.

Definition get_schema_definitions : handler document :=
  ret {[ "models" :=
           VList [VStr "user"; VStr "product"; VStr "modelspec";
                  VStr "deployment"; VStr "generationjob"] ]}.

Record PromptRequest : Type := {
  prompt : string;
  parameters : option (gmap string value)
}.

(** Lines 110-112: the guard on [db] and the update of the job. *)
Definition complete_job (job_id model_id : string) : handler unit :=
  let* d := require_db in
  let* o := ObjectId_new job_id in
  update_one_by d (_collection_name ClsGenerationJob) o
    [("status", VStr "completed"); ("model_id", VStr model_id)].

(** [entropy_job] and [entropy_model] feed the two identifiers the
    driver draws. *)
Definition generate_model (entropy_job entropy_model : N)
    (req : PromptRequest) : handler document :=
  let job :=
    {| job_prompt := prompt req; job_status := "running";
       job_model_id := None |} in
  let* job_id :=
    create_document (_collection_name ClsGenerationJob) job entropy_job in
  let* model :=
    lift (ModelSpec_init
            (if opt_dict_truthy (parameters req)
             then default (VStr "Prompt Model")
                    (default ∅ (parameters req) !! "name")
             else VStr "Prompt Model")
            (prompt req) "v1" "ready"
            (if opt_dict_truthy (parameters req)
             then default ∅ (parameters req) else ∅)
            ["weights://mock/model.bin"; "tokenizer://mock/vocab.json"]) in
  let* model_id :=
    create_document (_collection_name ClsModelSpec) model entropy_model in
  run complete_job job_id model_id then
  ret {[ "job_id" := VStr job_id; "model_id" := VStr model_id ]}.

Definition list_models (limit : Z) : handler (list document) :=
  let* docs := get_documents (_collection_name ClsModelSpec) limit in
  ret (_to_public <$> docs).

Record DeployRequest : Type := {
  model_id : string;
  name : option string
}.

Definition deploy_model (entropy : N) (req : DeployRequest)
    : handler document :=
  let* d := require_db in
  let* o := ObjectId_new (model_id req) in
  let model := find_one_by d (_collection_name ClsModelSpec) o in
  if negb (opt_dict_truthy model)
  then raise (HTTPException 404 "Model not found")
  else
    let deployment :=
      {| dep_model_id := model_id req;
         dep_name :=
           PyStr.or_else (name req)
             ("deployment-" +:+ PyStr.slice_last 6 (model_id req));
         dep_url :=
           Some (getenv_default "PUBLIC_BACKEND_URL" "" +:+ "/serve/"
                 +:+ model_id req);
         dep_status := "active" |} in
    let* dep_id :=
      create_document (_collection_name ClsDeployment) deployment entropy in
    ret {[ "deployment_id" := VStr dep_id ]}.

Definition list_deployments (limit : Z) : handler (list document) :=
  let* docs := get_documents (_collection_name ClsDeployment) limit in
  ret (_to_public <$> docs).

Definition serve_model (model_id : string) (q : option string)
    : handler document :=
  let* d := require_db in
  let* o := ObjectId_new model_id in
  let model := find_one_by d (_collection_name ClsModelSpec) o in
  if negb (opt_dict_truthy model)
  then raise (HTTPException 404 "Model not found")
  else
    ret {[ "model_id" := VStr model_id;
           "status" := VStr "ok";
           "output" :=
             VStr ("Model '"
                   +:+ py_str (default (VStr "Model")
                                 (default ∅ model !! "name"))
                   +:+ "' responded to: " +:+ PyStr.or_else q "ping") ]}.

(** The text [serve_model] answers with for a stored model and a query. *)
Definition serve_output (fields : document) (q : option string) : string :=
  "Model '"
  +:+ py_str (default (VStr "Model") (fields !! "name"))
  +:+ "' responded to: " +:+ PyStr.or_else q "ping".

End Api.

(** ** The HTTP layer of the framework *)

Inductive http_response (B : Type) : Type :=
| Success (status_code : Z) (body : B)
| Failure (status_code : Z) (detail : string)
| InternalServerError.
Arguments Success {B} status_code body.
Arguments Failure {B} status_code detail.
Arguments InternalServerError {B}.

(** A route declared with [status_code]: a returned value is sent with that
    code, an [HTTPException] with its own, anything else raised becomes the
    generic server error. *)
Definition respond {B} (status_code : Z) (r : result exn B) : http_response B :=
  match r with
  | Ok b => Success status_code b
  | Raise (HTTPException c detail) => Failure c detail
  | Raise _ => InternalServerError
  end.

Definition route {B} (status_code : Z) (h : handler B) (w : world)
    : http_response B * world :=
  (respond status_code (h w).1, (h w).2).

(** ** Notions used in the statements *)

(** The [name] argument [generate_model] hands to [ModelSpec]. *)
Definition requested_name (req : PromptRequest) : value :=
  if opt_dict_truthy (parameters req)
  then default (VStr "Prompt Model") (default ∅ (parameters req) !! "name")
  else VStr "Prompt Model".

(** The [parameters] argument [generate_model] hands to [ModelSpec]. *)
Definition requested_parameters (req : PromptRequest) : gmap string value :=
  if opt_dict_truthy (parameters req) then default ∅ (parameters req) else ∅.

(** The record a request's job is created as. *)
Definition running_job (req : PromptRequest) : GenerationJob :=
  {| job_prompt := prompt req; job_status := "running"; job_model_id := None |}.

(** The fields the job update sets. *)
Definition completed_fields (model_id : string) : list (string * value) :=
  [("status", VStr "completed"); ("model_id", VStr model_id)].

(** The status a write gives to a GenerationJob record, if it gives one. *)
Definition write_job_status (w : write) : option (ObjectId.t * value) :=
  match w with
  | Inserted c o doc =>
      if decide (c = "generationjob")
      then (fun v => (o, v)) <$> doc !! "status"
      else None
  | Updated c o fields =>
      if decide (c = "generationjob")
      then (fun v => (o, v)) <$> (list_to_map fields : gmap string value) !! "status"
      else None
  end.

(** The statuses a sequence of writes gives to GenerationJob records, in
    order. *)
Definition job_status_trace (ws : list write) : list (ObjectId.t * value) :=
  omap write_job_status ws.

(** The writes of a run of a handler: what it appends to the journal. *)
Definition writes_of {A} (h : handler A) (w : world) : list write :=
  drop (List.length (journal w)) (journal (h w).2).

(** "Every GenerationJob is written with status running at creation and
    updated exactly once to completed within the same request." *)
Definition every_job_completes : Prop :=
  forall (e1 e2 : N) (req : PromptRequest) (w : world) (o : ObjectId.t)
         (doc : document),
    Inserted "generationjob" o doc ∈ writes_of (generate_model e1 e2 req) w ->
    job_status_trace (writes_of (generate_model e1 e2 req) w)
    = [(o, VStr "running"); (o, VStr "completed")].

(** The model [generate_model] fabricates under the name [n]. *)
Definition generated_model (req : PromptRequest) (n : string) : ModelSpec :=
  {| ms_name := n; ms_prompt := prompt req; ms_version := "v1";
     ms_status := "ready"; ms_parameters := Some (requested_parameters req);
     ms_artifacts :=
       Some ["weights://mock/model.bin"; "tokenizer://mock/vocab.json"] |}.

(** The world after the job of a request has been created. *)
Definition job_created (e1 : N) (req : PromptRequest) (d : Database)
    (j : list write) : world :=
  {| db := Some (put d "generationjob" (ObjectId.generate e1)
                   (model_dump (running_job req)));
     journal := j ++ [Inserted "generationjob" (ObjectId.generate e1)
                        (model_dump (running_job req))] |}.

(** The world after a request has run to its end. *)
Definition job_completed (e1 e2 : N) (req : PromptRequest) (n : string)
    (d : Database) (j : list write) : world :=
  let o1 := ObjectId.generate e1 in
  let o2 := ObjectId.generate e2 in
  let job := model_dump (running_job req) in
  let model := model_dump (generated_model req n) in
  let fields := completed_fields (ObjectId.to_str o2) in
  {| db := Some (put (put (put d "generationjob" o1 job) "modelspec" o2 model)
                   "generationjob" o1 (set_fields fields job));
     journal := j ++ [Inserted "generationjob" o1 job;
                      Inserted "modelspec" o2 model;
                      Updated "generationjob" o1 fields] |}.

(** ** Sample data *)

Definition empty_store : Database :=
  {| db_name := "app"; db_collections := ∅ |}.

Definition sample_request : PromptRequest :=
  {| prompt := "hello"; parameters := None |}.

(** The world after [sample_request] has run on the empty store with the
    identifiers 1 (job) and 2 (model). *)
Definition sample_world : world :=
  job_completed 1 2 sample_request "Prompt Model" empty_store [].

Definition sample_store : Database :=
  put (put (put empty_store "generationjob" 1%N
              (model_dump (running_job sample_request)))
         "modelspec" 2%N
         (model_dump (generated_model sample_request "Prompt Model")))
    "generationjob" 1%N
    (set_fields (completed_fields "000000000000000000000002")
       (model_dump (running_job sample_request))).

Definition sample_model_id : string := "000000000000000000000002".

Definition sample_deploy_request : DeployRequest :=
  {| model_id := sample_model_id; name := None |}.

Definition plain_repr (v : value) : string := "[...]".

(** A request body that passes validation ([parameters] is a
    [Dict[str, Any]]) and names the model [null]. *)
Definition null_name_request : PromptRequest :=
  {| prompt := "hello"; parameters := Some {[ "name" := VNone ]} |}.

(** A store in which the identifier 2 of the ModelSpec collection is
    taken. *)
Definition taken_store : Database :=
  {| db_name := "app";
     db_collections := {[ "modelspec" := {[ 2%N := ∅ ]} ]} |}.


(** ** Notions used in the further statements *)

(** Every document of [d] is in [d'], unchanged, and the database keeps its
    name. *)
Definition stored_kept (d d' : Database) : Prop :=
  db_name d' = db_name d
  /\ forall (c : string) (o : ObjectId.t) (fields : document),
      get_collection d c !! o = Some fields ->
      get_collection d' c !! o = Some fields.

(** The same between two worlds; a [db] that is [None] stays [None]. *)
Definition world_kept (w w' : world) : Prop :=
  match db w, db w' with
  | Some d, Some d' => stored_kept d d'
  | None, None => True
  | _, _ => False
  end.

(** The record [deploy_model] builds for a request. *)
Definition deployment_of (environ : gmap string string) (req : DeployRequest)
    : Deployment :=
  {| dep_model_id := model_id req;
     dep_name :=
       PyStr.or_else (name req)
         ("deployment-" +:+ PyStr.slice_last 6 (model_id req));
     dep_url :=
       Some (getenv_default environ "PUBLIC_BACKEND_URL" "" +:+ "/serve/"
             +:+ model_id req);
     dep_status := "active" |}.

(** The name [serve_model] shows for a stored record. *)
Definition shown_name (container_repr : value -> string) (fields : document)
    : string :=
  match fields !! "name" with
  | Some v => py_str container_repr v
  | None => "Model"
  end.

Definition all_schema_classes : list schema_class :=
  [ClsUser; ClsProduct; ClsModelSpec; ClsDeployment; ClsGenerationJob].

(** The text of the two environment entries of [GET /test]. *)
Definition env_flag (environ : gmap string string) (key : string) : string :=
  match environ !! key with
  | Some (String _ _) => "✅ Set"
  | _ => "❌ Not Set"
  end.

Definition sample_environ : gmap string string :=
  {[ "PUBLIC_BACKEND_URL" := "https://api.example.org" ]}.

Definition named_request : PromptRequest :=
  {| prompt := "classify mail";
     parameters := Some {[ "name" := VStr "Mail Sorter"; "depth" := VInt 3 ]} |}.

(** ** Sentences of the specification, as they are written *)

(** "For every limit N, GET /api/models returns at most N records." *)
Definition every_limit_bounds : Prop :=
  forall (container_repr : value -> string) (limit : Z) (w : world)
         (docs : list document),
    (list_models container_repr limit w).1 = Ok docs ->
    Z.of_nat (List.length docs) <= limit.

(** The fields of the ModelSpec record a [model_id] matches, if it matches
    one. *)
Definition stored_model (d : Database) (mid : string) : option document :=
  match ObjectId.construct mid with
  | Some p => lookup_by d "modelspec" p
  | None => None
  end.

(** "For every POST /api/deploy request whose model_id does not match any
    existing ModelSpec record, the handler responds HTTP 404 and inserts no
    Deployment record." *)
Definition unknown_model_is_404 : Prop :=
  forall (environ : gmap string string) (entropy : N) (req : DeployRequest)
         (d : Database) (j : list write),
    stored_model d (model_id req) = None ->
    route 201 (deploy_model environ entropy req) {| db := Some d; journal := j |}
    = (Failure 404 "Model not found", {| db := Some d; journal := j |}).

(** "For every POST /api/deploy or GET /serve/{model_id} request whose
    model_id string is not a well-formed storage identifier (a 24-character
    hex ObjectId), the identifier conversion raises before any lookup, so
    the request fails with an unhandled generic server error rather than
    the HTTP 404." *)
Definition malformed_id_is_server_error : Prop :=
  forall (environ : gmap string string) (container_repr : value -> string)
         (entropy : N) (mid : string) (nm q : option string) (d : Database)
         (j : list write),
    ObjectId.well_formed mid = false ->
    route 201 (deploy_model environ entropy {| model_id := mid; name := nm |})
      {| db := Some d; journal := j |}
    = (InternalServerError, {| db := Some d; journal := j |})
    /\ route 200 (serve_model container_repr mid q)
         {| db := Some d; journal := j |}
       = (InternalServerError, {| db := Some d; journal := j |}).

(** ** Further sample data *)

(** 22 hexadecimal digits and two spaces: 24 characters, eleven bytes. *)
Definition spaced_model_id : string := "0000000000000000000002  ".

(** [sample_store] with a second model and two deployments. *)
Definition crowded_store : Database :=
  put (put (put sample_store "modelspec" 4%N
              (model_dump (generated_model named_request "Mail Sorter")))
         "deployment" 7%N
         (model_dump (deployment_of sample_environ sample_deploy_request)))
    "deployment" 8%N
    (model_dump (deployment_of sample_environ
                   {| model_id := "000000000000000000000004";
                      name := Some "production" |})).

(** * Proofs *)

(** ** Round trip of identifiers through their string form *)

Lemma hex_value_digit (d : N) :
  (d < 16)%N -> ObjectId.hex_value (ObjectId.hex_digit d) = Some d.
Proof.
  intros Hd.
  assert (Hcases : In d (map N.of_nat (seq 0 16))).
  { apply in_map_iff. exists (N.to_nat d). split; [lia|].
    apply in_seq. lia. }
  simpl in Hcases.
  repeat (destruct Hcases as [<- | Hcases]; [reflexivity|]).
  destruct Hcases.
Qed.

Lemma hex_be_length (k : nat) :
  forall n acc, PyStr.length (ObjectId.hex_be k n acc) = (k + PyStr.length acc)%nat.
Proof.
  induction k as [|k IH]; intros n acc; simpl; [reflexivity|].
  rewrite IH. simpl. lia.
Qed.

Lemma hex_parse_be (k : nat) :
  forall n acc a,
    ObjectId.hex_parse (ObjectId.hex_be k n acc) a
    = ObjectId.hex_parse acc (a * 16 ^ N.of_nat k + n mod 16 ^ N.of_nat k)%N.
Proof.
  induction k as [|k IH]; intros n acc a.
  - simpl. rewrite N.mod_1_r. f_equal. lia.
  - cbn [ObjectId.hex_be]. rewrite IH. cbn [ObjectId.hex_parse].
    rewrite hex_value_digit by (apply N.mod_lt; lia).
    f_equal.
    rewrite Nat2N.inj_succ, N.pow_succ_r'.
    rewrite (N.Div0.mod_mul_r n 16 (16 ^ N.of_nat k)). lia.
Qed.

Lemma ObjectId_str_length (o : ObjectId.t) :
  PyStr.length (ObjectId.to_str o) = 24%nat.
Proof. unfold ObjectId.to_str. rewrite hex_be_length. reflexivity. Qed.

Lemma ObjectId_of_to_str (o : ObjectId.t) :
  ObjectId.of_str (ObjectId.to_str o) = Some (o mod ObjectId.modulus)%N.
Proof.
  unfold ObjectId.of_str. rewrite ObjectId_str_length. simpl Nat.eqb. cbv iota.
  unfold ObjectId.to_str. rewrite hex_parse_be. cbn [ObjectId.hex_parse].
  f_equal.
Qed.

Lemma ObjectId_generate_roundtrip (entropy : N) :
  ObjectId.of_str (ObjectId.to_str (ObjectId.generate entropy))
  = Some (ObjectId.generate entropy).
Proof.
  rewrite ObjectId_of_to_str. unfold ObjectId.generate.
  rewrite N.Div0.mod_mod. reflexivity.
Qed.

(** ** The constructor of identifiers *)

Lemma hex_value_not_space (c : ascii) (v : N) :
  ObjectId.hex_value c = Some v -> ObjectId.is_space c = false.
Proof.
  destruct c as [[] [] [] [] [] [] [] []]; vm_compute; congruence.
Qed.

Lemma fromhex_digits (n : nat) :
  forall (s : string) (acc v : N),
    PyStr.length s = (2 * n)%nat ->
    ObjectId.hex_parse s acc = Some v ->
    exists bytes,
      ObjectId.fromhex s = Some bytes
      /\ List.length bytes = n
      /\ ObjectId.number_of bytes acc = v.
Proof.
  induction n as [|n IH]; intros s acc v Hlen Hparse.
  - destruct s; [|discriminate]. cbn in Hparse. injection Hparse as <-.
    by exists [].
  - destruct s as [|c [|c' s]]; [cbn in Hlen; lia | cbn in Hlen; lia |].
    cbn [ObjectId.hex_parse] in Hparse.
    destruct (ObjectId.hex_value c) as [hi|] eqn:Hhi; [|discriminate].
    destruct (ObjectId.hex_value c') as [lo|] eqn:Hlo; [|discriminate].
    destruct (IH s _ v ltac:(cbn in Hlen; lia) Hparse) as (bytes & Hb & Hn & Hv).
    exists ((hi * 16 + lo)%N :: bytes).
    cbn [ObjectId.fromhex]. rewrite (hex_value_not_space c hi Hhi), Hhi, Hlo, Hb.
    split; [reflexivity|]. split; [cbn; by rewrite Hn|].
    cbn [ObjectId.number_of fold_left]. unfold ObjectId.number_of in Hv.
    rewrite <- Hv. f_equal. lia.
Qed.

(** A string of 24 hexadecimal digits builds the identifier it spells. *)
Lemma construct_of_str (s : string) (o : ObjectId.t) :
  ObjectId.of_str s = Some o -> ObjectId.construct s = Some (ObjectId.Full o).
Proof.
  unfold ObjectId.of_str, ObjectId.construct.
  destruct (Nat.eqb (PyStr.length s) 24) eqn:Hlen; [|discriminate].
  apply Nat.eqb_eq in Hlen. intros Hparse.
  destruct (fromhex_digits 12 s 0%N o Hlen Hparse) as (bytes & -> & -> & ->).
  reflexivity.
Qed.

Lemma construct_generated (entropy : N) :
  ObjectId.construct (ObjectId.to_str (ObjectId.generate entropy))
  = Some (ObjectId.Full (ObjectId.generate entropy)).
Proof. apply construct_of_str, ObjectId_generate_roundtrip. Qed.

Lemma construct_wrong_length (s : string) :
  PyStr.length s <> 24%nat -> ObjectId.construct s = None.
Proof.
  intros Hlen. unfold ObjectId.construct.
  by rewrite (proj2 (Nat.eqb_neq _ _) Hlen).
Qed.

(** ** Facts about strings, dicts and the store *)

Lemma str_app_cons (c : ascii) (a b : string) :
  String c a +:+ b = String c (a +:+ b).
Proof. reflexivity. Qed.

Lemma str_app_empty_r (a : string) : a +:+ EmptyString = a.
Proof.
  induction a as [|c a IH]; [reflexivity|]. by rewrite str_app_cons, IH.
Qed.

Lemma str_app_assoc (a b c : string) : (a +:+ b) +:+ c = a +:+ b +:+ c.
Proof.
  induction a as [|x a IH]; [reflexivity|]. by rewrite !str_app_cons, IH.
Qed.

Lemma slice_to_length (n : nat) (s : string) :
  (PyStr.length (PyStr.slice_to n s) <= n)%nat.
Proof.
  unfold PyStr.slice_to. revert s.
  induction n as [|n IH]; intros [|c s]; simpl; try lia.
  specialize (IH s). lia.
Qed.

Lemma contains_suffix (pre sub : string) : PyStr.contains sub (pre +:+ sub).
Proof. exists pre, EmptyString. by rewrite str_app_empty_r. Qed.

Lemma dict_truthy_insert {V} (k : string) (v : V) (m : gmap string V) :
  dict_truthy (<[k := v]> m) = true.
Proof.
  unfold dict_truthy. destruct (size (<[k := v]> m)) eqn:E; [|reflexivity].
  apply map_size_empty_iff in E. by apply insert_non_empty in E.
Qed.

Lemma dict_truthy_empty {V} : dict_truthy (∅ : gmap string V) = false.
Proof. unfold dict_truthy. by rewrite map_size_empty. Qed.

Lemma find_one_truthy (d : Database) (c : string) (o : ObjectId.t) :
  opt_dict_truthy (find_one d c o)
  = bool_decide (is_Some (get_collection d c !! o)).
Proof.
  unfold find_one. destruct (get_collection d c !! o) as [f|] eqn:E.
  - rewrite bool_decide_eq_true_2 by eauto.
    cbn. unfold with_id. apply dict_truthy_insert.
  - rewrite bool_decide_eq_false_2 by (by intros [? ?]). reflexivity.
Qed.

Lemma get_collection_put (d : Database) (c c' : string) (o : ObjectId.t)
    (f : document) :
  get_collection (put d c o f) c'
  = if decide (c = c') then <[o := f]> (get_collection d c)
    else get_collection d c'.
Proof.
  unfold get_collection at 1, put. simpl. rewrite lookup_insert.
  by destruct (decide (c = c')).
Qed.

Lemma find_one_put_eq (d : Database) (c : string) (o : ObjectId.t)
    (f : document) :
  find_one (put d c o f) c o = Some (with_id o f).
Proof.
  unfold find_one. rewrite get_collection_put, decide_True by done.
  by rewrite lookup_insert_eq.
Qed.

Lemma with_id_lookup_ne (o : ObjectId.t) (f : document) (k : string) :
  k ≠ "_id" -> with_id o f !! k = f !! k.
Proof. intros Hk. unfold with_id. by rewrite lookup_insert_ne. Qed.

(** [ObjectId(s)] fails exactly on the strings that are not 24 hexadecimal
    digits. *)
Lemma hex_parse_all_hex (s : string) :
  forall acc, is_Some (ObjectId.hex_parse s acc) <-> ObjectId.all_hex s = true.
Proof.
  induction s as [|c s IH]; intros acc;
    cbn [ObjectId.hex_parse ObjectId.all_hex].
  - split; eauto.
  - destruct (ObjectId.hex_value c) as [v|] eqn:E.
    + rewrite bool_decide_eq_true_2 by eauto. apply IH.
    + rewrite bool_decide_eq_false_2 by (by intros [? ?]).
      split; [by intros [? ?] | done].
Qed.

Lemma of_str_well_formed (s : string) :
  is_Some (ObjectId.of_str s) <-> ObjectId.well_formed s = true.
Proof.
  unfold ObjectId.of_str, ObjectId.well_formed.
  destruct (Nat.eqb (PyStr.length s) 24); simpl.
  - apply hex_parse_all_hex.
  - split; [by intros [? ?] | done].
Qed.

Lemma of_str_malformed (s : string) :
  ObjectId.well_formed s = false -> ObjectId.of_str s = None.
Proof.
  intros H. destruct (ObjectId.of_str s) eqn:E; [|reflexivity].
  assert (Hs : is_Some (ObjectId.of_str s)) by eauto.
  apply of_str_well_formed in Hs. congruence.
Qed.

(** ** Collection names *)

Lemma collection_name_modelspec : _collection_name ClsModelSpec = "modelspec".
Proof. reflexivity. Qed.

Lemma collection_name_deployment : _collection_name ClsDeployment = "deployment".
Proof. reflexivity. Qed.

Lemma collection_name_generationjob :
  _collection_name ClsGenerationJob = "generationjob".
Proof. reflexivity. Qed.

(** ** The handlers of one model, path by path *)

Lemma create_document_connected {T} `{BaseModel T} (c : string) (record : T)
    (entropy : N) (d : Database) (j : list write) :
  create_document c record entropy {| db := Some d; journal := j |}
  = match get_collection d c !! ObjectId.generate entropy with
    | Some _ =>
        (Raise (DuplicateKeyError (ObjectId.generate entropy)),
         {| db := Some d; journal := j |})
    | None =>
        (Ok (ObjectId.to_str (ObjectId.generate entropy)),
         {| db := Some (put d c (ObjectId.generate entropy) (model_dump record));
            journal :=
              j ++ [Inserted c (ObjectId.generate entropy) (model_dump record)] |})
    end.
Proof.
  unfold create_document, bind, insert_one. cbn [db journal].
  by destruct (get_collection d c !! ObjectId.generate entropy).
Qed.

Lemma find_one_by_truthy (d : Database) (c : string) (p : ObjectId.built) :
  opt_dict_truthy (find_one_by d c p)
  = bool_decide (is_Some (lookup_by d c p)).
Proof.
  destruct p as [o|bytes]; cbn [find_one_by lookup_by].
  - apply find_one_truthy.
  - rewrite bool_decide_eq_false_2 by (by intros [? ?]). reflexivity.
Qed.

Lemma deploy_model_run (environ : gmap string string) (entropy : N)
    (req : DeployRequest) (w : world) :
  deploy_model environ entropy req w
  = match db w with
    | None => (Raise (HTTPException 500 "Database not configured"), w)
    | Some d =>
        match ObjectId.construct (model_id req) with
        | None => (Raise (InvalidId (model_id req)), w)
        | Some p =>
            match lookup_by d "modelspec" p with
            | None => (Raise (HTTPException 404 "Model not found"), w)
            | Some _ =>
                match get_collection d "deployment" !! ObjectId.generate entropy with
                | Some _ =>
                    (Raise (DuplicateKeyError (ObjectId.generate entropy)), w)
                | None =>
                    (Ok {[ "deployment_id" :=
                             VStr (ObjectId.to_str (ObjectId.generate entropy)) ]},
                     {| db := Some (put d "deployment" (ObjectId.generate entropy)
                                      (model_dump (deployment_of environ req)));
                        journal :=
                          journal w
                          ++ [Inserted "deployment" (ObjectId.generate entropy)
                                (model_dump (deployment_of environ req))] |})
                end
            end
        end
    end.
Proof.
  unfold deploy_model, bind, require_db, ObjectId_new.
  destruct w as [[d|] j]; cbn [db journal]; [|reflexivity].
  destruct (ObjectId.construct (model_id req)) as [p|]; [|reflexivity].
  unfold ret at 1. rewrite collection_name_modelspec, find_one_by_truthy.
  destruct (lookup_by d "modelspec" p) as [fields|].
  2:{ rewrite bool_decide_eq_false_2 by (by intros [? ?]). reflexivity. }
  rewrite bool_decide_eq_true_2 by eauto. cbn [negb].
  rewrite create_document_connected, collection_name_deployment.
  by destruct (get_collection d "deployment" !! ObjectId.generate entropy).
Qed.

Lemma serve_model_run (container_repr : value -> string) (mid : string)
    (q : option string) (w : world) :
  serve_model container_repr mid q w
  = match db w with
    | None => (Raise (HTTPException 500 "Database not configured"), w)
    | Some d =>
        match ObjectId.construct mid with
        | None => (Raise (InvalidId mid), w)
        | Some p =>
            match lookup_by d "modelspec" p with
            | None => (Raise (HTTPException 404 "Model not found"), w)
            | Some fields =>
                (Ok {[ "model_id" := VStr mid; "status" := VStr "ok";
                       "output" := VStr (serve_output container_repr fields q) ]},
                 w)
            end
        end
    end.
Proof.
  unfold serve_model, bind, require_db, ObjectId_new.
  destruct w as [[d|] j]; cbn [db]; [|reflexivity].
  destruct (ObjectId.construct mid) as [p|]; [|reflexivity].
  unfold ret at 1. rewrite collection_name_modelspec, find_one_by_truthy.
  destruct (lookup_by d "modelspec" p) as [fields|] eqn:Hdoc.
  2:{ rewrite bool_decide_eq_false_2 by (by intros [? ?]). reflexivity. }
  rewrite bool_decide_eq_true_2 by eauto. cbn [negb].
  destruct p as [o|bytes]; [|discriminate].
  cbn [lookup_by] in Hdoc. cbn [find_one_by]. unfold find_one.
  rewrite Hdoc. cbn. rewrite with_id_lookup_ne by done. reflexivity.
Qed.

(** ** Serving *)

Section Serving.

Variable container_repr : value -> string.

Lemma serve_model_found (mid : string) (q : option string) (d : Database)
    (j : list write) (o : ObjectId.t) (fields : document) :
  ObjectId.of_str mid = Some o ->
  get_collection d "modelspec" !! o = Some fields ->
  serve_model container_repr mid q {| db := Some d; journal := j |}
  = (Ok {[ "model_id" := VStr mid; "status" := VStr "ok";
           "output" := VStr (serve_output container_repr fields q) ]},
     {| db := Some d; journal := j |}).
Proof.
  intros Hid Hdoc.
  rewrite serve_model_run. cbn [db].
  rewrite (construct_of_str _ _ Hid). cbn [lookup_by].
  rewrite Hdoc. reflexivity.
Qed.

Lemma serve_output_contains (fields : document) (q : option string) :
  PyStr.contains (PyStr.or_else q "ping") (serve_output container_repr fields q).
Proof.
  unfold serve_output.
  rewrite <- !str_app_assoc. apply contains_suffix.
Qed.

(** C5: for an existing model, [GET /serve/{model_id}] without [q] answers
    with an output that contains "ping", and with [q=hello] with an output
    that contains "hello". *)
Theorem serve_model_echoes_query (mid : string) (d : Database)
    (j : list write) (o : ObjectId.t) (fields : document) :
  ObjectId.of_str mid = Some o ->
  get_collection d "modelspec" !! o = Some fields ->
  let w := {| db := Some d; journal := j |} in
  (exists body out,
      route 200 (serve_model container_repr mid None) w
      = (Success 200 body, w)
      /\ body !! "output" = Some (VStr out)
      /\ PyStr.contains "ping" out)
  /\ (exists body out,
      route 200 (serve_model container_repr mid (Some "hello")) w
      = (Success 200 body, w)
      /\ body !! "output" = Some (VStr out)
      /\ PyStr.contains "hello" out).
Proof.
  intros Hid Hdoc w. unfold route, w.
  split; eexists _, _;
    (split; [rewrite (serve_model_found _ _ _ _ _ _ Hid Hdoc); reflexivity|]);
    (split; [reflexivity|]).
  - apply (serve_output_contains fields None).
  - apply (serve_output_contains fields (Some "hello")).
Qed.

(** C9: an empty query is treated as an absent one: the handler gives the
    same result in every state, and for an existing model the output ends
    with the placeholder "ping". *)
Theorem serve_model_empty_query (mid : string) (d : Database)
    (j : list write) (o : ObjectId.t) (fields : document) :
  ObjectId.of_str mid = Some o ->
  get_collection d "modelspec" !! o = Some fields ->
  let w := {| db := Some d; journal := j |} in
  (forall w' : world,
      serve_model container_repr mid (Some "") w'
      = serve_model container_repr mid None w')
  /\ exists body,
      route 200 (serve_model container_repr mid (Some "")) w
      = (Success 200 body, w)
      /\ body !! "output"
         = Some (VStr ("Model '"
                       +:+ py_str container_repr
                             (default (VStr "Model") (fields !! "name"))
                       +:+ "' responded to: ping")).
Proof.
  intros Hid Hdoc w. split; [reflexivity|].
  eexists. unfold route, w.
  rewrite (serve_model_found _ _ _ _ _ _ Hid Hdoc). split; reflexivity.
Qed.

End Serving.

(** ** Deployment *)

Section Deployment.

Variable environ : gmap string string.

Lemma slice_last_app (n : nat) (pre suf : string) :
  PyStr.length suf = n -> PyStr.slice_last n (pre +:+ suf) = suf.
Proof.
  intros Hn. unfold PyStr.slice_last.
  assert (Hlen : forall a b, PyStr.length (a +:+ b)
                             = (PyStr.length a + PyStr.length b)%nat).
  { induction a as [|c a IH]; intros b; [reflexivity|].
    rewrite str_app_cons. simpl. by rewrite IH. }
  rewrite Hlen, Hn.
  replace (PyStr.length pre + n - n)%nat with (PyStr.length pre) by lia.
  clear. induction pre as [|c pre IH]; [by destruct suf|].
  rewrite str_app_cons. simpl. exact IH.
Qed.

(** C3, as stated, fails: the [model_id] "abc" matches no record, and the
    answer is the generic server error, not 404. *)
Lemma unknown_model_not_always_404 :
  ~ unknown_model_is_404
  /\ stored_model sample_store "abc" = None
  /\ route 201 (deploy_model ∅ 7 {| model_id := "abc"; name := None |})
       {| db := Some sample_store; journal := [] |}
     = (InternalServerError, {| db := Some sample_store; journal := [] |}).
Proof.
  assert (Hrun : route 201 (deploy_model ∅ 7 {| model_id := "abc"; name := None |})
                   {| db := Some sample_store; journal := [] |}
                 = (InternalServerError,
                    {| db := Some sample_store; journal := [] |}))
    by (vm_compute; reflexivity).
  split; [|split; [reflexivity | exact Hrun]].
  intros Hall.
  specialize (Hall ∅ 7%N {| model_id := "abc"; name := None |} sample_store []
                eq_refl).
  rewrite Hrun in Hall. discriminate Hall.
Qed.

(** C3 (amended): on a connected store, a request whose [model_id] matches
    no ModelSpec record creates no Deployment record: the store and the
    journal of writes are as before.  The answer is HTTP 404 when the
    identifier constructor accepts the [model_id], and the generic server
    error when it raises. *)
Theorem deploy_model_unknown_model (entropy : N) (req : DeployRequest)
    (d : Database) (j : list write) :
  stored_model d (model_id req) = None ->
  let w := {| db := Some d; journal := j |} in
  route 201 (deploy_model environ entropy req) w
  = (match ObjectId.construct (model_id req) with
     | Some _ => Failure 404 "Model not found"
     | None => InternalServerError
     end, w).
Proof.
  intros Hnone w. unfold route. rewrite deploy_model_run. unfold w. cbn [db].
  unfold stored_model in Hnone.
  destruct (ObjectId.construct (model_id req)) as [p|]; [|reflexivity].
  rewrite Hnone. reflexivity.
Qed.

(** C4: a deployment request without [name] that succeeds has stored a
    Deployment record whose name is "deployment-" followed by the last six
    characters of the given [model_id]. *)
Theorem deploy_model_default_name (entropy : N) (req : DeployRequest)
    (w w' : world) (body : document) :
  name req = None ->
  deploy_model environ entropy req w = (Ok body, w') ->
  exists (d' : Database) (o : ObjectId.t) (fields : document),
    db w' = Some d'
    /\ body = {[ "deployment_id" := VStr (ObjectId.to_str o) ]}
    /\ journal w' = journal w ++ [Inserted "deployment" o fields]
    /\ get_collection d' "deployment" !! o = Some fields
    /\ fields !! "name"
       = Some (VStr ("deployment-" +:+ PyStr.slice_last 6 (model_id req))).
Proof.
  intros Hname. rewrite deploy_model_run.
  destruct (db w) as [d|] eqn:Hdb; [|discriminate].
  destruct (ObjectId.construct (model_id req)) as [p|]; [|discriminate].
  destruct (lookup_by d "modelspec" p); [|discriminate].
  destruct (get_collection d "deployment" !! ObjectId.generate entropy)
    eqn:Hfresh; [discriminate|].
  intros [= <- <-].
  eexists _, (ObjectId.generate entropy), _. cbn [db journal].
  repeat split.
  - rewrite get_collection_put, decide_True by done.
    apply lookup_insert_eq.
  - unfold deployment_of. rewrite Hname. reflexivity.
Qed.

End Deployment.

(** ** Identifiers the constructor refuses *)

Lemma construct_refused_malformed (s : string) :
  ObjectId.construct s = None -> ObjectId.well_formed s = false.
Proof.
  intros Hnone. destruct (ObjectId.well_formed s) eqn:Hwf; [|reflexivity].
  apply of_str_well_formed in Hwf as [o Ho].
  apply construct_of_str in Ho. congruence.
Qed.

Lemma construct_refused_iff (s : string) :
  ObjectId.construct s = None
  <-> PyStr.length s <> 24%nat \/ ObjectId.fromhex s = None.
Proof.
  unfold ObjectId.construct.
  destruct (Nat.eqb (PyStr.length s) 24) eqn:Hlen.
  - apply Nat.eqb_eq in Hlen.
    destruct (ObjectId.fromhex s); split; try discriminate; auto.
    intros [?|?]; [lia | discriminate].
  - apply Nat.eqb_neq in Hlen. split; auto.
Qed.

(** C10, as stated, fails: [spaced_model_id] is not 24 hexadecimal digits,
    yet the constructor accepts it, the lookup runs and finds nothing, and
    both handlers answer 404. *)
Lemma malformed_id_can_be_404 :
  ~ malformed_id_is_server_error
  /\ ObjectId.well_formed spaced_model_id = false
  /\ route 201
       (deploy_model ∅ 7 {| model_id := spaced_model_id; name := None |})
       {| db := Some sample_store; journal := [] |}
     = (Failure 404 "Model not found",
        {| db := Some sample_store; journal := [] |})
  /\ route 200 (serve_model plain_repr spaced_model_id None)
       {| db := Some sample_store; journal := [] |}
     = (Failure 404 "Model not found",
        {| db := Some sample_store; journal := [] |}).
Proof.
  assert (Hrun : route 200 (serve_model plain_repr spaced_model_id None)
                   {| db := Some sample_store; journal := [] |}
                 = (Failure 404 "Model not found",
                    {| db := Some sample_store; journal := [] |}))
    by (vm_compute; reflexivity).
  split; [|split; [reflexivity | split; [vm_compute; reflexivity | exact Hrun]]].
  intros Hall.
  destruct (Hall ∅ plain_repr 7%N spaced_model_id None None sample_store []
              eq_refl) as [_ Hserve].
  rewrite Hrun in Hserve. discriminate Hserve.
Qed.

(** C10 (amended): on a connected store, a [model_id] that the identifier
    constructor refuses - a string that is not 24 characters long, or one
    that [bytes.fromhex] cannot read - makes the conversion raise before any
    lookup, in [deploy_model] and in [serve_model] alike: the client gets
    the generic server error, not the 404 of an absent model, and nothing is
    written. *)
Theorem malformed_model_id_is_server_error (environ : gmap string string)
    (container_repr : value -> string) (entropy : N) (mid : string)
    (nm q : option string) (d : Database) (j : list write) :
  PyStr.length mid <> 24%nat \/ ObjectId.fromhex mid = None ->
  let w := {| db := Some d; journal := j |} in
  deploy_model environ entropy {| model_id := mid; name := nm |} w
  = (Raise (InvalidId mid), w)
  /\ serve_model container_repr mid q w = (Raise (InvalidId mid), w)
  /\ route 201 (deploy_model environ entropy {| model_id := mid; name := nm |}) w
     = (InternalServerError, w)
  /\ route 200 (serve_model container_repr mid q) w = (InternalServerError, w).
Proof.
  intros Hbad w. apply construct_refused_iff in Hbad.
  assert (Hd : deploy_model environ entropy {| model_id := mid; name := nm |} w
               = (Raise (InvalidId mid), w)).
  { rewrite deploy_model_run. unfold w. cbn [db model_id].
    rewrite Hbad. reflexivity. }
  assert (Hs : serve_model container_repr mid q w = (Raise (InvalidId mid), w)).
  { rewrite serve_model_run. unfold w. cbn [db]. rewrite Hbad. reflexivity. }
  unfold route. rewrite Hd, Hs. repeat split.
Qed.

(** ** The guard before the job update *)

(** The step of [generate_model] that updates the job first checks [db]:
    run on its own with the connection absent, it raises HTTP 500 "Database
    not configured" and updates nothing. *)
Lemma complete_job_without_db (job_id mid : string) (j : list write)
    (body : document) :
  let w := {| db := None; journal := j |} in
  complete_job job_id mid w
  = (Raise (HTTPException 500 "Database not configured"), w)
  /\ route 201 (bind (complete_job job_id mid) (fun _ => ret body)) w
     = (Failure 500 "Database not configured", w).
Proof. split; reflexivity. Qed.

(** With the connection absent from the start the adapter fails first: the
    request ends at the creation of the job. *)
Lemma generate_model_without_db (e1 e2 : N) (req : PromptRequest)
    (j : list write) :
  let w := {| db := None; journal := j |} in
  generate_model e1 e2 req w = (Raise DatabaseNotAvailable, w).
Proof. reflexivity. Qed.

(** ** Diagnostics *)

(** C6: [GET /test] answers in every state of the store.  When the listing
    of the collections raises, the answer reports at most the first 50
    characters of the message. *)
Theorem test_database_never_fails (environ : gmap string string)
    (fault : option string) (w : world) :
  exists response : document,
    test_database environ fault w = (Ok response, w)
    /\ route 200 (test_database environ fault) w = (Success 200 response, w)
    /\ match db w, fault with
       | Some _, Some msg =>
           response !! "database"
           = Some (VStr ("⚠️  Connected but Error: " +:+ PyStr.slice_to 50 msg))
           /\ (PyStr.length (PyStr.slice_to 50 msg) <= 50)%nat
       | Some _, None =>
           response !! "database" = Some (VStr "✅ Connected & Working")
       | None, _ =>
           response !! "database"
           = Some (VStr "⚠️  Available but not initialized")
       end.
Proof.
  eexists. split; [reflexivity|]. split; [reflexivity|].
  unfold test_outer_try, test_inner_try, list_collection_names.
  destruct (db w) as [d|], fault as [msg|]; cbn -[PyStr.slice_to].
  - split; [|apply slice_to_length].
    rewrite !lookup_insert_ne by done. by rewrite lookup_insert_eq.
  - rewrite !lookup_insert_ne by done. by rewrite lookup_insert_eq.
  - rewrite !lookup_insert_ne by done. by rewrite lookup_insert_eq.
  - rewrite !lookup_insert_ne by done. by rewrite lookup_insert_eq.
Qed.

(** ** Listings *)

Section Listings.

Variable container_repr : value -> string.

Lemma to_public_stored (o : ObjectId.t) (fields : document) :
  _to_public container_repr (with_id o fields)
  = <["id" := VStr (ObjectId.to_str o)]> (delete "_id" (with_id o fields)).
Proof.
  unfold _to_public, with_id. rewrite dict_truthy_insert. cbn [negb].
  by rewrite lookup_insert_eq.
Qed.

Lemma to_public_stored_fields (o : ObjectId.t) (fields : document) :
  let doc := _to_public container_repr (with_id o fields) in
  doc !! "id" = Some (VStr (ObjectId.to_str o)) /\ doc !! "_id" = None.
Proof.
  cbn zeta. rewrite to_public_stored. split.
  - apply lookup_insert_eq.
  - rewrite lookup_insert_ne by done. apply lookup_delete_eq.
Qed.

Lemma find_limit_length (d : Database) (c : string) (n : nat) :
  (List.length (find_limit d c n) <= n)%nat.
Proof. unfold find_limit. rewrite length_take. lia. Qed.

Lemma find_limit_stored (d : Database) (c : string) (n : nat) :
  Forall (fun doc => exists o fields,
              get_collection d c !! o = Some fields /\ doc = with_id o fields)
         (find_limit d c n).
Proof.
  unfold find_limit. apply Forall_take, Forall_fmap, Forall_forall.
  intros [o fields] Hin. apply elem_of_map_to_list in Hin.
  exists o, fields. split; [exact Hin | reflexivity].
Qed.

(** C2: for a limit [N >= 0], [GET /api/models] answers with at most [N]
    records; each of them has no [_id] entry and has under [id] the string
    form of the identifier of a stored ModelSpec record. *)
Theorem list_models_bounded_public (limit : Z) (d : Database)
    (j : list write) :
  0 <= limit ->
  let w := {| db := Some d; journal := j |} in
  exists docs : list document,
    route 200 (list_models container_repr limit) w = (Success 200 docs, w)
    /\ Z.of_nat (List.length docs) <= limit
    /\ Forall (fun doc =>
                 doc !! "_id" = None
                 /\ exists o fields,
                     get_collection d "modelspec" !! o = Some fields
                     /\ doc !! "id" = Some (VStr (ObjectId.to_str o)))
              docs.
Proof.
  intros Hlimit w.
  exists (_to_public container_repr <$> find_limit d "modelspec" (Z.to_nat limit)).
  split; [reflexivity|]. split.
  - rewrite length_fmap.
    pose proof (find_limit_length d "modelspec" (Z.to_nat limit)). lia.
  - apply Forall_fmap.
    eapply Forall_impl; [apply find_limit_stored|].
    intros doc (o & fields & Hstored & ->). cbn.
    destruct (to_public_stored_fields o fields) as [Hid Hnoid].
    split; [exact Hnoid|]. exists o, fields. split; [exact Hstored | exact Hid].
Qed.

End Listings.

(** C2, as stated, fails: asked with the limit -1, the listing answers with
    no record, and none is more than -1. *)
Lemma negative_limit_not_bounding :
  ~ every_limit_bounds
  /\ route 200 (list_models plain_repr (-1))
       {| db := Some sample_store; journal := [] |}
     = (Success 200 [], {| db := Some sample_store; journal := [] |}).
Proof.
  split; [|vm_compute; reflexivity].
  intros Hall.
  assert (Hrun : (list_models plain_repr (-1)
                    {| db := Some sample_store; journal := [] |}).1 = Ok [])
    by (vm_compute; reflexivity).
  specialize (Hall plain_repr (-1) _ [] Hrun). cbn in Hall. lia.
Qed.

(** ** Model generation, step by step *)

Lemma complete_job_connected (entropy : N) (mid : string) (d : Database)
    (j : list write) (doc : document) :
  get_collection d "generationjob" !! ObjectId.generate entropy = Some doc ->
  complete_job (ObjectId.to_str (ObjectId.generate entropy)) mid
    {| db := Some d; journal := j |}
  = (Ok tt,
     {| db := Some (put d "generationjob" (ObjectId.generate entropy)
                      (set_fields (completed_fields mid) doc));
        journal :=
          j ++ [Updated "generationjob" (ObjectId.generate entropy)
                  (completed_fields mid)] |}).
Proof.
  intros Hdoc. unfold complete_job, bind, require_db, ObjectId_new.
  cbn [db]. rewrite construct_generated. unfold ret.
  rewrite collection_name_generationjob. cbn [update_one_by]. unfold update_one.
  rewrite Hdoc. reflexivity.
Qed.

Lemma generate_model_connected (e1 e2 : N) (req : PromptRequest)
    (d : Database) (j : list write) :
  generate_model e1 e2 req {| db := Some d; journal := j |}
  = match get_collection d "generationjob" !! ObjectId.generate e1 with
    | Some _ =>
        (Raise (DuplicateKeyError (ObjectId.generate e1)),
         {| db := Some d; journal := j |})
    | None =>
        match validate_str "name" (requested_name req) with
        | Raise e => (Raise e, job_created e1 req d j)
        | Ok n =>
            match get_collection d "modelspec" !! ObjectId.generate e2 with
            | Some _ =>
                (Raise (DuplicateKeyError (ObjectId.generate e2)),
                 job_created e1 req d j)
            | None =>
                (Ok {[ "job_id" := VStr (ObjectId.to_str (ObjectId.generate e1));
                       "model_id" := VStr (ObjectId.to_str (ObjectId.generate e2)) ]},
                 job_completed e1 e2 req n d j)
            end
        end
    end.
Proof.
  unfold generate_model, bind.
  rewrite create_document_connected, collection_name_generationjob.
  destruct (get_collection d "generationjob" !! ObjectId.generate e1) eqn:Hjob;
    [reflexivity|].
  unfold lift, ModelSpec_init, requested_name.
  destruct (validate_str "name" _) as [n|e]; [|reflexivity].
  rewrite create_document_connected, collection_name_modelspec.
  rewrite get_collection_put, decide_False by done.
  destruct (get_collection d "modelspec" !! ObjectId.generate e2) eqn:Hmodel;
    [reflexivity|].
  erewrite complete_job_connected.
  2:{ rewrite get_collection_put, decide_False by done.
      rewrite get_collection_put, decide_True by done.
      apply lookup_insert_eq. }
  unfold ret, job_completed. cbn zeta. rewrite <- !app_assoc. reflexivity.
Qed.

Lemma writes_of_appended {A} (h : handler A) (w : world) (new : list write) :
  journal (h w).2 = journal w ++ new -> writes_of h w = new.
Proof. intros Hj. unfold writes_of. rewrite Hj. apply drop_app_length. Qed.

Lemma writes_of_unchanged {A} (h : handler A) (w : world) :
  (h w).2 = w -> writes_of h w = [].
Proof.
  intros Hw. apply writes_of_appended. rewrite Hw. by rewrite app_nil_r.
Qed.

Lemma job_created_trace (o : ObjectId.t) (req : PromptRequest) :
  job_status_trace [Inserted "generationjob" o (model_dump (running_job req))]
  = [(o, VStr "running")].
Proof. reflexivity. Qed.

Lemma job_completed_trace (o1 o2 : ObjectId.t) (req : PromptRequest)
    (model : document) (mid : string) :
  job_status_trace
    [Inserted "generationjob" o1 (model_dump (running_job req));
     Inserted "modelspec" o2 model;
     Updated "generationjob" o1 (completed_fields mid)]
  = [(o1, VStr "running"); (o1, VStr "completed")].
Proof. reflexivity. Qed.

(** X19: on a connected store, with identifiers that are not taken and a
    name that is absent or a string, a request runs to its end: 201, a model
    that is ready with two artifacts, and a completed job that points to
    it. *)
Lemma generate_model_success (e1 e2 : N) (req : PromptRequest) (n : string)
    (d : Database) (j : list write) :
  get_collection d "generationjob" !! ObjectId.generate e1 = None ->
  get_collection d "modelspec" !! ObjectId.generate e2 = None ->
  requested_name req = VStr n ->
  let w := {| db := Some d; journal := j |} in
  let job_id := ObjectId.to_str (ObjectId.generate e1) in
  let model_id := ObjectId.to_str (ObjectId.generate e2) in
  exists (d' : Database) (model job : document),
    route 201 (generate_model e1 e2 req) w
    = (Success 201 {[ "job_id" := VStr job_id; "model_id" := VStr model_id ]},
       job_completed e1 e2 req n d j)
    /\ db (job_completed e1 e2 req n d j) = Some d'
    /\ find_one d' "modelspec" (ObjectId.generate e2) = Some model
    /\ model !! "status" = Some (VStr "ready")
    /\ model !! "artifacts"
       = Some (VList [VStr "weights://mock/model.bin";
                      VStr "tokenizer://mock/vocab.json"])
    /\ find_one d' "generationjob" (ObjectId.generate e1) = Some job
    /\ job !! "status" = Some (VStr "completed")
    /\ job !! "model_id" = Some (VStr model_id).
Proof.
  intros Hjob Hmodel Hname w job_id model_id.
  eexists _, _, _. split.
  { unfold route, w. rewrite generate_model_connected, Hjob, Hname, Hmodel.
    reflexivity. }
  split; [reflexivity|]. split.
  { unfold find_one. rewrite get_collection_put, decide_False by done.
    rewrite get_collection_put, decide_True by done.
    rewrite lookup_insert_eq. reflexivity. }
  split; [reflexivity|]. split; [reflexivity|]. split.
  { apply find_one_put_eq. }
  split; reflexivity.
Qed.

(** C1: on the request [{"prompt": "hello", "parameters": {"name": null}}],
    which passes the validation of the request body, and a connected empty
    store, [generate_model] raises while it builds the ModelSpec: the client
    gets the generic server error instead of 201, no model is stored, and
    the job the request created stays "running". *)
Theorem generate_model_null_name :
  let w := {| db := Some empty_store; journal := [] |} in
  generate_model 1 2 null_name_request w
  = (Raise (ValidationError "name"),
     job_created 1 null_name_request empty_store [])
  /\ route 201 (generate_model 1 2 null_name_request) w
     = (InternalServerError, job_created 1 null_name_request empty_store [])
  /\ writes_of (generate_model 1 2 null_name_request) w
     = [Inserted "generationjob" 1%N (model_dump (running_job null_name_request))]
  /\ job_status_trace (writes_of (generate_model 1 2 null_name_request) w)
     = [(1%N, VStr "running")].
Proof. vm_compute. repeat split. Qed.

(** ** The status of a job *)

(** C8, as stated, fails: a request that fails after it created the job
    never updates it.  So it is when the insertion of the model fails (here
    its identifier is taken), and so it is on [null_name_request]. *)
Lemma job_left_running :
  ~ every_job_completes
  /\ job_status_trace
       (writes_of (generate_model 1 2 sample_request)
          {| db := Some taken_store; journal := [] |})
     = [(1%N, VStr "running")]
  /\ job_status_trace
       (writes_of (generate_model 1 2 null_name_request)
          {| db := Some empty_store; journal := [] |})
     = [(1%N, VStr "running")].
Proof.
  assert (Hrun : writes_of (generate_model 1 2 sample_request)
                   {| db := Some taken_store; journal := [] |}
                 = [Inserted "generationjob" 1%N
                      (model_dump (running_job sample_request))])
    by (vm_compute; reflexivity).
  split; [|split; vm_compute; reflexivity].
  intros Hall.
  specialize (Hall 1%N 2%N sample_request
                {| db := Some taken_store; journal := [] |} 1%N
                (model_dump (running_job sample_request))).
  rewrite Hrun in Hall. specialize (Hall (list_elem_of_here _ _)).
  vm_compute in Hall. discriminate Hall.
Qed.

Lemma generate_model_job_trace (e1 e2 : N) (req : PromptRequest) (w : world) :
  journal (generate_model e1 e2 req w).2
  = journal w ++ writes_of (generate_model e1 e2 req) w
  /\ match (generate_model e1 e2 req w).1 with
     | Ok _ =>
         job_status_trace (writes_of (generate_model e1 e2 req) w)
         = [(ObjectId.generate e1, VStr "running");
            (ObjectId.generate e1, VStr "completed")]
     | Raise _ =>
         job_status_trace (writes_of (generate_model e1 e2 req) w) = []
         \/ job_status_trace (writes_of (generate_model e1 e2 req) w)
            = [(ObjectId.generate e1, VStr "running")]
     end.
Proof.
  destruct w as [[d|] j].
  - assert (Hnew : exists new,
               journal (generate_model e1 e2 req {| db := Some d; journal := j |}).2
               = j ++ new
               /\ match (generate_model e1 e2 req
                           {| db := Some d; journal := j |}).1 with
                  | Ok _ =>
                      job_status_trace new
                      = [(ObjectId.generate e1, VStr "running");
                         (ObjectId.generate e1, VStr "completed")]
                  | Raise _ =>
                      job_status_trace new = []
                      \/ job_status_trace new
                         = [(ObjectId.generate e1, VStr "running")]
                  end).
    { rewrite generate_model_connected.
      destruct (get_collection d "generationjob" !! ObjectId.generate e1).
      { exists []. cbn. rewrite app_nil_r. auto. }
      destruct (validate_str "name" (requested_name req)) as [n|e].
      2:{ eexists. split; [reflexivity|]. right. apply job_created_trace. }
      destruct (get_collection d "modelspec" !! ObjectId.generate e2).
      { eexists. split; [reflexivity|]. right. apply job_created_trace. }
      eexists. split; [reflexivity|]. apply job_completed_trace. }
    destruct Hnew as (new & Hj & Htrace).
    rewrite (writes_of_appended _ _ new Hj). split; [exact Hj | exact Htrace].
  - rewrite writes_of_unchanged by reflexivity.
    cbn. rewrite app_nil_r. auto.
Qed.

Lemma deploy_model_job_trace (environ : gmap string string) (entropy : N)
    (req : DeployRequest) (w : world) :
  job_status_trace (writes_of (deploy_model environ entropy req) w) = [].
Proof.
  assert (Hnew : exists new,
             journal (deploy_model environ entropy req w).2 = journal w ++ new
             /\ job_status_trace new = []).
  { rewrite deploy_model_run.
    destruct (db w) as [d|].
    2:{ exists []. by rewrite app_nil_r. }
    destruct (ObjectId.construct (model_id req)) as [p|].
    2:{ exists []. by rewrite app_nil_r. }
    destruct (lookup_by d "modelspec" p).
    2:{ exists []. by rewrite app_nil_r. }
    destruct (get_collection d "deployment" !! ObjectId.generate entropy).
    { exists []. by rewrite app_nil_r. }
    eexists. split; reflexivity. }
  destruct Hnew as (new & Hj & Htrace).
  by rewrite (writes_of_appended _ _ new Hj).
Qed.

Lemma serve_model_reads_only (container_repr : value -> string)
    (mid : string) (q : option string) (w : world) :
  (serve_model container_repr mid q w).2 = w.
Proof.
  rewrite serve_model_run.
  destruct (db w) as [d|]; [|reflexivity].
  destruct (ObjectId.construct mid) as [p|]; [|reflexivity].
  by destruct (lookup_by d "modelspec" p).
Qed.

Lemma get_documents_reads_only (c : string) (limit : Z) (w : world) :
  (get_documents c limit w).2 = w.
Proof. unfold get_documents. by destruct (db w). Qed.

Lemma list_models_reads_only (container_repr : value -> string) (limit : Z)
    (w : world) :
  (list_models container_repr limit w).2 = w.
Proof.
  unfold list_models, bind.
  pose proof (get_documents_reads_only (_collection_name ClsModelSpec) limit w)
    as Hw.
  by destruct (get_documents _ limit w) as [[docs|e] w']; cbn in *.
Qed.

Lemma list_deployments_reads_only (container_repr : value -> string)
    (limit : Z) (w : world) :
  (list_deployments container_repr limit w).2 = w.
Proof.
  unfold list_deployments, bind.
  pose proof (get_documents_reads_only (_collection_name ClsDeployment) limit w)
    as Hw.
  by destruct (get_documents _ limit w) as [[docs|e] w']; cbn in *.
Qed.

(** C8 (amended): a request writes a GenerationJob with status "running" when
    it creates it and updates it at most once, to "completed", and exactly
    once when the request returns; no handler writes any other status to a
    GenerationJob record. *)
Theorem job_status_transitions :
  (forall (e1 e2 : N) (req : PromptRequest) (w : world),
      journal (generate_model e1 e2 req w).2
      = journal w ++ writes_of (generate_model e1 e2 req) w
      /\ match (generate_model e1 e2 req w).1 with
         | Ok _ =>
             job_status_trace (writes_of (generate_model e1 e2 req) w)
             = [(ObjectId.generate e1, VStr "running");
                (ObjectId.generate e1, VStr "completed")]
         | Raise _ =>
             job_status_trace (writes_of (generate_model e1 e2 req) w) = []
             \/ job_status_trace (writes_of (generate_model e1 e2 req) w)
                = [(ObjectId.generate e1, VStr "running")]
         end)
  /\ (forall (environ : gmap string string) (entropy : N) (req : DeployRequest)
             (w : world),
         job_status_trace (writes_of (deploy_model environ entropy req) w) = [])
  /\ (forall (container_repr : value -> string) (mid : string)
             (q : option string) (w : world),
         writes_of (serve_model container_repr mid q) w = [])
  /\ (forall (container_repr : value -> string) (limit : Z) (w : world),
         writes_of (list_models container_repr limit) w = []
         /\ writes_of (list_deployments container_repr limit) w = [])
  /\ (forall (environ : gmap string string) (fault : option string) (w : world),
         writes_of (test_database environ fault) w = []).
Proof.
  split; [exact generate_model_job_trace|].
  split; [exact deploy_model_job_trace|].
  split.
  { intros. apply writes_of_unchanged, serve_model_reads_only. }
  split.
  { intros. split; apply writes_of_unchanged;
      [apply list_models_reads_only | apply list_deployments_reads_only]. }
  intros. by apply writes_of_unchanged.
Qed.

(** ** The check of the connection in [generate_model] *)


(** ** The statements at sample data *)

Lemma sample_world_store : db sample_world = Some sample_store.
Proof. vm_compute. reflexivity. Qed.

Lemma list_models_bounded_public_witness :
  0 <= 1
  /\ size (get_collection crowded_store "modelspec") = 2%nat
  /\ exists docs : list document,
      route 200 (list_models plain_repr 1)
        {| db := Some crowded_store; journal := [] |}
      = (Success 200 docs, {| db := Some crowded_store; journal := [] |})
      /\ List.length docs = 1%nat
      /\ Z.of_nat (List.length docs) <= 1
      /\ Forall (fun doc =>
                   doc !! "_id" = None
                   /\ exists o fields,
                       get_collection crowded_store "modelspec" !! o = Some fields
                       /\ doc !! "id" = Some (VStr (ObjectId.to_str o)))
                docs.
Proof.
  assert (H : 0 <= 1) by lia.
  split; [exact H|]. split; [vm_compute; reflexivity|].
  destruct (list_models_bounded_public plain_repr 1 crowded_store [] H)
    as (docs & Hrun & Hlen & Hall).
  exists docs. split; [exact Hrun|]. split; [|split; [exact Hlen | exact Hall]].
  assert (Hone : forall r : http_response (list document) * world,
             route 200 (list_models plain_repr 1)
               {| db := Some crowded_store; journal := [] |} = r ->
             match r.1 with
             | Success _ l => List.length l = 1%nat
             | _ => False
             end) by (intros r <-; vm_compute; reflexivity).
  exact (Hone _ Hrun).
Defined.

Lemma deploy_model_unknown_model_witness :
  stored_model sample_store "0000000000000000000000ff" = None
  /\ route 201
       (deploy_model ∅ 7 {| model_id := "0000000000000000000000ff"; name := None |})
       {| db := Some sample_store; journal := [] |}
     = (Failure 404 "Model not found",
        {| db := Some sample_store; journal := [] |}).
Proof.
  assert (H : stored_model sample_store "0000000000000000000000ff" = None)
    by (vm_compute; reflexivity).
  split; [exact H|].
  exact (deploy_model_unknown_model ∅ 7
           {| model_id := "0000000000000000000000ff"; name := None |}
           sample_store [] H).
Defined.

Lemma deploy_model_default_name_witness :
  let w := {| db := Some sample_store; journal := [] |} in
  let w' := (deploy_model ∅ 7 sample_deploy_request w).2 in
  let body : document := {[ "deployment_id" := VStr "000000000000000000000007" ]} in
  name sample_deploy_request = None
  /\ deploy_model ∅ 7 sample_deploy_request w = (Ok body, w')
  /\ exists (d' : Database) (o : ObjectId.t) (fields : document),
      db w' = Some d'
      /\ body = {[ "deployment_id" := VStr (ObjectId.to_str o) ]}
      /\ journal w' = journal w ++ [Inserted "deployment" o fields]
      /\ get_collection d' "deployment" !! o = Some fields
      /\ fields !! "name" = Some (VStr "deployment-000002").
Proof.
  intros w w' body.
  assert (H1 : name sample_deploy_request = None) by reflexivity.
  assert (H2 : deploy_model ∅ 7 sample_deploy_request w = (Ok body, w'))
    by (vm_compute; reflexivity).
  split; [exact H1|]. split; [exact H2|].
  exact (deploy_model_default_name ∅ 7 sample_deploy_request w w' body H1 H2).
Defined.

Lemma serve_model_echoes_query_witness :
  let w := {| db := Some sample_store; journal := [] |} in
  let fields := model_dump (generated_model sample_request "Prompt Model") in
  ObjectId.of_str sample_model_id = Some 2%N
  /\ get_collection sample_store "modelspec" !! 2%N = Some fields
  /\ (exists body out,
         route 200 (serve_model plain_repr sample_model_id None) w
         = (Success 200 body, w)
         /\ body !! "output" = Some (VStr out)
         /\ PyStr.contains "ping" out)
  /\ (exists body out,
         route 200 (serve_model plain_repr sample_model_id (Some "hello")) w
         = (Success 200 body, w)
         /\ body !! "output" = Some (VStr out)
         /\ PyStr.contains "hello" out).
Proof.
  intros w fields.
  assert (H1 : ObjectId.of_str sample_model_id = Some 2%N)
    by (vm_compute; reflexivity).
  assert (H2 : get_collection sample_store "modelspec" !! 2%N = Some fields)
    by (vm_compute; reflexivity).
  split; [exact H1|]. split; [exact H2|].
  exact (serve_model_echoes_query plain_repr sample_model_id sample_store []
           2%N fields H1 H2).
Defined.

Lemma serve_model_empty_query_witness :
  let w := {| db := Some sample_store; journal := [] |} in
  let fields := model_dump (generated_model sample_request "Prompt Model") in
  ObjectId.of_str sample_model_id = Some 2%N
  /\ get_collection sample_store "modelspec" !! 2%N = Some fields
  /\ (forall w' : world,
         serve_model plain_repr sample_model_id (Some "") w'
         = serve_model plain_repr sample_model_id None w')
  /\ exists body,
      route 200 (serve_model plain_repr sample_model_id (Some "")) w
      = (Success 200 body, w)
      /\ body !! "output"
         = Some (VStr "Model 'Prompt Model' responded to: ping").
Proof.
  intros w fields.
  assert (H1 : ObjectId.of_str sample_model_id = Some 2%N)
    by (vm_compute; reflexivity).
  assert (H2 : get_collection sample_store "modelspec" !! 2%N = Some fields)
    by (vm_compute; reflexivity).
  split; [exact H1|]. split; [exact H2|].
  exact (serve_model_empty_query plain_repr sample_model_id sample_store []
           2%N fields H1 H2).
Defined.

Lemma malformed_model_id_is_server_error_witness :
  let w := {| db := Some sample_store; journal := [] |} in
  (PyStr.length "abc" <> 24%nat \/ ObjectId.fromhex "abc" = None)
  /\ deploy_model ∅ 7 {| model_id := "abc"; name := None |} w
     = (Raise (InvalidId "abc"), w)
  /\ serve_model plain_repr "abc" None w = (Raise (InvalidId "abc"), w)
  /\ route 201 (deploy_model ∅ 7 {| model_id := "abc"; name := None |}) w
     = (InternalServerError, w)
  /\ route 200 (serve_model plain_repr "abc" None) w = (InternalServerError, w).
Proof.
  intros w.
  assert (H : PyStr.length "abc" <> 24%nat \/ ObjectId.fromhex "abc" = None)
    by (left; vm_compute; lia).
  split; [exact H|].
  exact (malformed_model_id_is_server_error ∅ plain_repr 7 "abc" None None
           sample_store [] H).
Defined.

(** * Further properties of the handlers *)

(** ** [_to_public] *)

Section ToPublic.

Variable container_repr : value -> string.

Lemma to_public_cases (doc : document) :
  _to_public container_repr doc
  = match doc !! "_id" with
    | Some v => <["id" := VStr (py_str container_repr v)]> (delete "_id" doc)
    | None => doc
    end.
Proof.
  unfold _to_public. destruct (dict_truthy doc) eqn:Htruthy; [reflexivity|].
  cbn [negb]. unfold dict_truthy in Htruthy.
  destruct (size doc) eqn:Hsize; [|discriminate].
  apply map_size_empty_iff in Hsize. subst doc. by rewrite lookup_empty.
Qed.

Lemma to_public_drops_id (doc : document) :
  _to_public container_repr doc !! "_id" = None.
Proof.
  rewrite to_public_cases. destruct (doc !! "_id") as [v|] eqn:Hid; [|exact Hid].
  rewrite lookup_insert_ne by done. apply lookup_delete_eq.
Qed.

(** X1: whatever the document, [_to_public] leaves no [_id] entry and keeps
    every entry other than [_id] and [id]; a document without [_id], the
    empty one included, is returned as it is. *)
Theorem to_public_fields (doc : document) :
  _to_public container_repr doc !! "_id" = None
  /\ (forall k : string,
         k <> "_id" -> k <> "id" ->
         _to_public container_repr doc !! k = doc !! k)
  /\ match doc !! "_id" with
     | Some v =>
         _to_public container_repr doc !! "id"
         = Some (VStr (py_str container_repr v))
     | None => _to_public container_repr doc = doc
     end.
Proof.
  split; [apply to_public_drops_id|].
  rewrite to_public_cases.
  destruct (doc !! "_id") as [v|] eqn:Hid.
  - split.
    + intros k Hk1 Hk2. rewrite lookup_insert_ne by done.
      by rewrite lookup_delete_ne.
    + apply lookup_insert_eq.
  - split; reflexivity.
Qed.

(** X2: [_to_public] is idempotent: applied to its own result it changes
    nothing. *)
Theorem to_public_idempotent (doc : document) :
  _to_public container_repr (_to_public container_repr doc)
  = _to_public container_repr doc.
Proof.
  rewrite (to_public_cases (_to_public container_repr doc)).
  by rewrite to_public_drops_id.
Qed.

End ToPublic.

(** ** [deploy_model] and [serve_model], path by path *)

Lemma model_dump_deployment (d : Deployment) :
  model_dump d !! "model_id" = Some (VStr (dep_model_id d))
  /\ model_dump d !! "name" = Some (VStr (dep_name d))
  /\ model_dump d !! "url" = Some (opt_str (dep_url d))
  /\ model_dump d !! "status" = Some (VStr (dep_status d)).
Proof. repeat split. Qed.

(** X3: with the connection absent, [deploy_model] and [serve_model] answer
    HTTP 500 "Database not configured" for every [model_id], malformed ones
    included: the check comes before the identifier is converted, and
    nothing is written. *)
Theorem handlers_without_db (environ : gmap string string)
    (container_repr : value -> string) (entropy : N) (req : DeployRequest)
    (mid : string) (q : option string) (j : list write) :
  let w := {| db := None; journal := j |} in
  route 201 (deploy_model environ entropy req) w
  = (Failure 500 "Database not configured", w)
  /\ route 200 (serve_model container_repr mid q) w
     = (Failure 500 "Database not configured", w).
Proof.
  intros w. unfold route.
  rewrite deploy_model_run, serve_model_run. split; reflexivity.
Qed.

(** X4: a request to [deploy_model] that fails, for whatever reason, writes
    nothing; one that succeeds writes exactly one record, into the
    deployment collection, under the identifier it returns. *)
Theorem deploy_model_all_or_nothing (environ : gmap string string)
    (entropy : N) (req : DeployRequest) (w : world) :
  match deploy_model environ entropy req w with
  | (Raise _, w') => w' = w
  | (Ok body, w') =>
      exists (d : Database) (o : ObjectId.t) (fields : document),
        db w = Some d
        /\ get_collection d "deployment" !! o = None
        /\ body = {[ "deployment_id" := VStr (ObjectId.to_str o) ]}
        /\ db w' = Some (put d "deployment" o fields)
        /\ journal w' = journal w ++ [Inserted "deployment" o fields]
  end.
Proof.
  rewrite deploy_model_run.
  destruct (db w) as [d|] eqn:Hdb; [|reflexivity].
  destruct (ObjectId.construct (model_id req)) as [p|]; [|reflexivity].
  destruct (lookup_by d "modelspec" p); [|reflexivity].
  destruct (get_collection d "deployment" !! ObjectId.generate entropy)
    eqn:Hfresh; [reflexivity|].
  eexists d, _, _. repeat split. exact Hfresh.
Qed.

(** X5: the Deployment record of a successful request carries the
    [model_id] as it was given, the status "active", and as [url] the value
    of [PUBLIC_BACKEND_URL] (nothing when it is unset) followed by
    "/serve/" and the [model_id]. *)
Theorem deploy_model_record (environ : gmap string string) (entropy : N)
    (req : DeployRequest) (w w' : world) (body : document) :
  deploy_model environ entropy req w = (Ok body, w') ->
  exists (d' : Database) (fields : document),
    db w' = Some d'
    /\ get_collection d' "deployment" !! ObjectId.generate entropy = Some fields
    /\ body !! "deployment_id"
       = Some (VStr (ObjectId.to_str (ObjectId.generate entropy)))
    /\ fields !! "model_id" = Some (VStr (model_id req))
    /\ fields !! "status" = Some (VStr "active")
    /\ fields !! "url"
       = Some (VStr (default "" (environ !! "PUBLIC_BACKEND_URL")
                     +:+ "/serve/" +:+ model_id req)).
Proof.
  rewrite deploy_model_run.
  destruct (db w) as [d|]; [|discriminate].
  destruct (ObjectId.construct (model_id req)) as [p|]; [|discriminate].
  destruct (lookup_by d "modelspec" p); [|discriminate].
  destruct (get_collection d "deployment" !! ObjectId.generate entropy);
    [discriminate|].
  intros [= <- <-]. eexists _, _. cbn [db]. split; [reflexivity|].
  split.
  { rewrite get_collection_put, decide_True by done. apply lookup_insert_eq. }
  split; [apply lookup_insert_eq|].
  destruct (model_dump_deployment (deployment_of environ req))
    as (Hmid & _ & Hurl & Hstatus).
  split; [exact Hmid|]. split; [exact Hstatus|]. exact Hurl.
Qed.

(** X6: a successful request with a non-empty [name] stores that name; with
    the empty string as [name] it stores the generated name, as when the
    name is absent. *)
Theorem deploy_model_given_name (environ : gmap string string) (entropy : N)
    (req : DeployRequest) (w w' : world) (body : document) :
  deploy_model environ entropy req w = (Ok body, w') ->
  exists (d' : Database) (fields : document),
    db w' = Some d'
    /\ get_collection d' "deployment" !! ObjectId.generate entropy = Some fields
    /\ fields !! "name"
       = Some (VStr match name req with
                    | Some (String c s) => String c s
                    | Some EmptyString | None =>
                        "deployment-" +:+ PyStr.slice_last 6 (model_id req)
                    end).
Proof.
  rewrite deploy_model_run.
  destruct (db w) as [d|]; [|discriminate].
  destruct (ObjectId.construct (model_id req)) as [p|]; [|discriminate].
  destruct (lookup_by d "modelspec" p); [|discriminate].
  destruct (get_collection d "deployment" !! ObjectId.generate entropy);
    [discriminate|].
  intros [= <- <-]. eexists _, _. cbn [db]. split; [reflexivity|].
  split.
  { rewrite get_collection_put, decide_True by done. apply lookup_insert_eq. }
  destruct (model_dump_deployment (deployment_of environ req))
    as (_ & Hname & _).
  etrans; [exact Hname|]. cbn [deployment_of dep_name].
  by destruct (name req) as [[|c s]|].
Qed.

(** X7: [serve_model] answers a well-formed [model_id] that no ModelSpec
    record carries with HTTP 404 "Model not found". *)
Theorem serve_model_unknown_model (container_repr : value -> string)
    (mid : string) (q : option string) (d : Database) (j : list write)
    (o : ObjectId.t) :
  ObjectId.of_str mid = Some o ->
  get_collection d "modelspec" !! o = None ->
  let w := {| db := Some d; journal := j |} in
  route 200 (serve_model container_repr mid q) w
  = (Failure 404 "Model not found", w).
Proof.
  intros Hid Hnone w. unfold route. rewrite serve_model_run. unfold w.
  cbn [db]. rewrite (construct_of_str _ _ Hid). cbn [lookup_by].
  rewrite Hnone. reflexivity.
Qed.

(** X8: for a stored model the answer of [serve_model] is the [model_id] as
    given, the status "ok" and the output "Model '<name>' responded to:
    <query>": the name is the record's, or "Model" when the record has no
    name, and the query is [q], or "ping" when [q] is absent or empty. *)
Theorem serve_model_answer (container_repr : value -> string)
    (mid : string) (q : option string) (d : Database) (j : list write)
    (o : ObjectId.t) (fields : document) :
  ObjectId.of_str mid = Some o ->
  get_collection d "modelspec" !! o = Some fields ->
  let w := {| db := Some d; journal := j |} in
  route 200 (serve_model container_repr mid q) w
  = (Success 200
       {[ "model_id" := VStr mid; "status" := VStr "ok";
          "output" :=
            VStr ("Model '" +:+ shown_name container_repr fields
                  +:+ "' responded to: "
                  +:+ match q with
                      | Some (String c s) => String c s
                      | Some EmptyString | None => "ping"
                      end) ]},
     w)
  /\ (forall n : string,
         fields !! "name" = Some (VStr n) -> shown_name container_repr fields = n)
  /\ (fields !! "name" = None -> shown_name container_repr fields = "Model").
Proof.
  intros Hid Hdoc w. split.
  - unfold route. rewrite serve_model_run. unfold w. cbn [db].
    rewrite (construct_of_str _ _ Hid). cbn [lookup_by].
    rewrite Hdoc. cbn [fst snd]. unfold respond, serve_output, shown_name.
    assert (Hname : py_str container_repr (default (VStr "Model") (fields !! "name"))
                    = match fields !! "name" with
                      | Some v => py_str container_repr v
                      | None => "Model"
                      end) by (by destruct (fields !! "name")).
    assert (Hq : PyStr.or_else q "ping"
                 = match q with
                   | Some (String c s) => String c s
                   | Some EmptyString | None => "ping"
                   end) by (by destruct q as [[|c s]|]).
    by rewrite Hname, Hq.
  - unfold shown_name. split; [intros n ->|intros ->]; reflexivity.
Qed.

(** ** Handlers that only read *)

(** X9: the listings, [serve_model], [test_database], [read_root] and
    [get_schema_definitions] leave the store and the journal of writes as
    they were, whatever they answer. *)
Theorem read_only_handlers (environ : gmap string string)
    (container_repr : value -> string) (fault : option string) (limit : Z)
    (mid : string) (q : option string) (w : world) :
  (list_models container_repr limit w).2 = w
  /\ (list_deployments container_repr limit w).2 = w
  /\ (serve_model container_repr mid q w).2 = w
  /\ (test_database environ fault w).2 = w
  /\ (read_root w).2 = w
  /\ (get_schema_definitions w).2 = w.
Proof.
  split; [apply list_models_reads_only|].
  split; [apply list_deployments_reads_only|].
  split; [apply serve_model_reads_only|].
  repeat split.
Qed.

(** ** Handlers that write *)

Lemma stored_kept_refl (d : Database) : stored_kept d d.
Proof. split; [reflexivity | auto]. Qed.

Lemma stored_kept_put (d d' : Database) (c : string) (o : ObjectId.t)
    (fields : document) :
  stored_kept d d' ->
  get_collection d c !! o = None ->
  stored_kept d (put d' c o fields).
Proof.
  intros [Hname Hdocs] Hfree. split; [exact Hname|].
  intros c' o' f' Hstored. rewrite get_collection_put.
  destruct (decide (c = c')) as [<-|Hne]; [|by apply Hdocs].
  rewrite lookup_insert_ne; [by apply Hdocs|].
  intros <-. congruence.
Qed.

(** X10: [generate_model] and [deploy_model] never change or remove a
    document that was stored before the request, whether they succeed or
    fail, and they never change whether [db] is present. *)
Theorem writers_keep_stored_documents (environ : gmap string string)
    (e1 e2 : N) (greq : PromptRequest) (dreq : DeployRequest) (w : world) :
  world_kept w (generate_model e1 e2 greq w).2
  /\ world_kept w (deploy_model environ e1 dreq w).2.
Proof.
  unfold world_kept. destruct w as [[d|] j]; cbn [db].
  2:{ split; [reflexivity|]. rewrite deploy_model_run. reflexivity. }
  split.
  - rewrite generate_model_connected.
    destruct (get_collection d "generationjob" !! ObjectId.generate e1) eqn:Hjob;
      [apply stored_kept_refl|].
    assert (Hcreated : stored_kept d
              (put d "generationjob" (ObjectId.generate e1)
                 (model_dump (running_job greq))))
      by (apply stored_kept_put; [apply stored_kept_refl | exact Hjob]).
    destruct (validate_str "name" (requested_name greq)) as [n|e];
      [|exact Hcreated].
    destruct (get_collection d "modelspec" !! ObjectId.generate e2) eqn:Hmodel;
      [exact Hcreated|].
    unfold job_completed. cbn [snd db].
    apply stored_kept_put; [|exact Hjob].
    apply stored_kept_put; [exact Hcreated | exact Hmodel].
  - rewrite deploy_model_run. cbn [db].
    destruct (ObjectId.construct (model_id dreq)) as [p|];
      [|apply stored_kept_refl].
    destruct (lookup_by d "modelspec" p); [|apply stored_kept_refl].
    destruct (get_collection d "deployment" !! ObjectId.generate e1) eqn:Hfree;
      [apply stored_kept_refl|].
    cbn [snd db]. apply stored_kept_put; [apply stored_kept_refl | exact Hfree].
Qed.

(** ** What a successful generation leaves behind *)

Lemma dict_truthy_lookup {V} (m : gmap string V) (k : string) (v : V) :
  m !! k = Some v -> dict_truthy m = true.
Proof.
  intros Hk. unfold dict_truthy. destruct (size m) eqn:Hsize; [|reflexivity].
  apply map_size_empty_iff in Hsize. subst m. by rewrite lookup_empty in Hk.
Qed.

Lemma requested_parameters_given (req : PromptRequest) :
  requested_parameters req = default ∅ (parameters req).
Proof.
  unfold requested_parameters. destruct (parameters req) as [p|]; [|reflexivity].
  cbn. unfold dict_truthy. destruct (size p) eqn:Hsize; [|reflexivity].
  apply map_size_empty_iff in Hsize. by subst p.
Qed.

Lemma validate_str_ok (field : string) (v : value) (n : string) :
  validate_str field v = Ok n -> v = VStr n.
Proof. destruct v; cbn; congruence. Qed.

Lemma generate_model_ok_inv (e1 e2 : N) (req : PromptRequest) (w w' : world)
    (body : document) :
  generate_model e1 e2 req w = (Ok body, w') ->
  exists (d : Database) (n : string),
    db w = Some d
    /\ get_collection d "generationjob" !! ObjectId.generate e1 = None
    /\ get_collection d "modelspec" !! ObjectId.generate e2 = None
    /\ requested_name req = VStr n
    /\ body = {[ "job_id" := VStr (ObjectId.to_str (ObjectId.generate e1));
                 "model_id" := VStr (ObjectId.to_str (ObjectId.generate e2)) ]}
    /\ w' = job_completed e1 e2 req n d (journal w).
Proof.
  destruct w as [[d|] j]; [|discriminate].
  rewrite generate_model_connected.
  destruct (get_collection d "generationjob" !! ObjectId.generate e1) eqn:Hjob;
    [discriminate|].
  destruct (validate_str "name" (requested_name req)) as [n|e] eqn:Hvalid;
    [|discriminate].
  destruct (get_collection d "modelspec" !! ObjectId.generate e2) eqn:Hmodel;
    [discriminate|].
  intros [= <- <-]. exists d, n. apply validate_str_ok in Hvalid.
  repeat split; assumption.
Qed.

Lemma job_completed_model (e1 e2 : N) (req : PromptRequest) (n : string)
    (d d' : Database) (j : list write) :
  db (job_completed e1 e2 req n d j) = Some d' ->
  get_collection d' "modelspec" !! ObjectId.generate e2
  = Some (model_dump (generated_model req n)).
Proof.
  unfold job_completed. cbn [db]. intros [= <-].
  rewrite get_collection_put, decide_False by done.
  rewrite get_collection_put, decide_True by done.
  apply lookup_insert_eq.
Qed.

Lemma job_completed_job (e1 e2 : N) (req : PromptRequest) (n : string)
    (d d' : Database) (j : list write) :
  db (job_completed e1 e2 req n d j) = Some d' ->
  get_collection d' "generationjob" !! ObjectId.generate e1
  = Some (set_fields (completed_fields (ObjectId.to_str (ObjectId.generate e2)))
            (model_dump (running_job req))).
Proof.
  unfold job_completed. cbn [db]. intros [= <-].
  rewrite get_collection_put, decide_True by done.
  apply lookup_insert_eq.
Qed.

(** X11: a request that returns has stored a ModelSpec with the prompt of
    the request, version "v1", the given parameters (an empty map when none
    were given) and a name that is [parameters.name] when that entry is
    present, and "Prompt Model" when there are no parameters or they have no
    [name]. *)
Theorem generate_model_stored_model (e1 e2 : N) (req : PromptRequest)
    (w w' : world) (body : document) :
  generate_model e1 e2 req w = (Ok body, w') ->
  exists (d' : Database) (model : document) (n : string),
    db w' = Some d'
    /\ get_collection d' "modelspec" !! ObjectId.generate e2 = Some model
    /\ model !! "name" = Some (VStr n)
    /\ model !! "prompt" = Some (VStr (prompt req))
    /\ model !! "version" = Some (VStr "v1")
    /\ model !! "parameters"
       = Some (VDict (map_to_list (default ∅ (parameters req))))
    /\ (parameters req = None -> n = "Prompt Model")
    /\ (forall p, parameters req = Some p -> p !! "name" = None ->
                  n = "Prompt Model")
    /\ (forall p v, parameters req = Some p -> p !! "name" = Some v ->
                    v = VStr n).
Proof.
  intros Hrun.
  destruct (generate_model_ok_inv _ _ _ _ _ _ Hrun)
    as (d & n & Hdb & Hjob & Hmodel & Hname & -> & ->).
  eexists _, (model_dump (generated_model req n)), n.
  split; [reflexivity|].
  split; [by apply (job_completed_model e1 e2 req n d _ (journal w))|].
  split; [reflexivity|]. split; [reflexivity|]. split; [reflexivity|].
  split.
  { rewrite <- requested_parameters_given. reflexivity. }
  unfold requested_name in Hname. split; [|split].
  - intros Hnone. rewrite Hnone in Hname. cbn in Hname. congruence.
  - intros p Hp Hnoname. rewrite Hp in Hname. cbn in Hname.
    rewrite Hnoname in Hname. destruct (dict_truthy p); cbn in Hname; congruence.
  - intros p v Hp Hv. rewrite Hp in Hname. cbn in Hname.
    rewrite (dict_truthy_lookup p "name" v Hv), Hv in Hname. exact Hname.
Qed.

(** X12: a request that returns has stored the job under the returned
    [job_id] with the prompt of the request, status "completed" and the
    returned [model_id], and has written exactly three times: the job, the
    model, the update of the job. *)
Theorem generate_model_stored_job (e1 e2 : N) (req : PromptRequest)
    (w w' : world) (body : document) :
  generate_model e1 e2 req w = (Ok body, w') ->
  exists (d' : Database) (job model : document),
    db w' = Some d'
    /\ body !! "job_id" = Some (VStr (ObjectId.to_str (ObjectId.generate e1)))
    /\ body !! "model_id" = Some (VStr (ObjectId.to_str (ObjectId.generate e2)))
    /\ get_collection d' "generationjob" !! ObjectId.generate e1 = Some job
    /\ job !! "prompt" = Some (VStr (prompt req))
    /\ job !! "status" = Some (VStr "completed")
    /\ job !! "model_id" = body !! "model_id"
    /\ journal w'
       = journal w
         ++ [Inserted "generationjob" (ObjectId.generate e1)
               (model_dump (running_job req));
             Inserted "modelspec" (ObjectId.generate e2) model;
             Updated "generationjob" (ObjectId.generate e1)
               (completed_fields (ObjectId.to_str (ObjectId.generate e2)))].
Proof.
  intros Hrun.
  destruct (generate_model_ok_inv _ _ _ _ _ _ Hrun)
    as (d & n & Hdb & Hjob & Hmodel & Hname & -> & ->).
  eexists _, _, _. split; [reflexivity|].
  split; [reflexivity|]. split; [reflexivity|].
  split; [by apply (job_completed_job e1 e2 req n d _ (journal w))|].
  repeat split.
Qed.

(** ** Requests one after the other *)

(** X13: the [model_id] a generation returns can be served at once: in the
    world the request leaves, [serve_model] answers 200 with the name the
    model was stored under. *)
Theorem generated_model_is_served (container_repr : value -> string)
    (e1 e2 : N) (req : PromptRequest) (q : option string) (w w' : world)
    (body : document) :
  generate_model e1 e2 req w = (Ok body, w') ->
  exists (mid n : string),
    body !! "model_id" = Some (VStr mid)
    /\ requested_name req = VStr n
    /\ route 200 (serve_model container_repr mid q) w'
       = (Success 200
            {[ "model_id" := VStr mid; "status" := VStr "ok";
               "output" :=
                 VStr ("Model '" +:+ n +:+ "' responded to: "
                       +:+ PyStr.or_else q "ping") ]},
          w').
Proof.
  intros Hrun.
  destruct (generate_model_ok_inv _ _ _ _ _ _ Hrun)
    as (d & n & Hdb & Hjob & Hmodel & Hname & -> & ->).
  exists (ObjectId.to_str (ObjectId.generate e2)), n.
  split; [reflexivity|]. split; [exact Hname|].
  unfold route. rewrite serve_model_run.
  destruct (db (job_completed e1 e2 req n d (journal w))) as [d'|] eqn:Hdb';
    [|discriminate].
  rewrite construct_generated. cbn [lookup_by].
  rewrite (job_completed_model e1 e2 req n d d' (journal w) Hdb').
  reflexivity.
Qed.

(** X14: the [model_id] a generation returns can be deployed at once: with
    an identifier that is free in the deployment collection, [deploy_model]
    answers 201 in the world the generation leaves. *)
Theorem generated_model_is_deployable (environ : gmap string string)
    (e1 e2 e3 : N) (req : PromptRequest) (nm : option string) (w w' : world)
    (d : Database) (body : document) :
  generate_model e1 e2 req w = (Ok body, w') ->
  db w = Some d ->
  get_collection d "deployment" !! ObjectId.generate e3 = None ->
  exists mid : string,
    body !! "model_id" = Some (VStr mid)
    /\ (route 201 (deploy_model environ e3 {| model_id := mid; name := nm |}) w').1
       = Success 201
           {[ "deployment_id" := VStr (ObjectId.to_str (ObjectId.generate e3)) ]}.
Proof.
  intros Hrun Hdb Hfree.
  destruct (generate_model_ok_inv _ _ _ _ _ _ Hrun)
    as (d0 & n & Hdb0 & Hjob & Hmodel & Hname & -> & ->).
  assert (d0 = d) as -> by congruence.
  exists (ObjectId.to_str (ObjectId.generate e2)).
  split; [reflexivity|].
  unfold route. rewrite deploy_model_run. cbn [model_id].
  destruct (db (job_completed e1 e2 req n d (journal w))) as [d'|] eqn:Hdb';
    [|discriminate].
  rewrite construct_generated. cbn [lookup_by].
  rewrite (job_completed_model e1 e2 req n d d' (journal w) Hdb').
  assert (Hfree' : get_collection d' "deployment" !! ObjectId.generate e3 = None).
  { unfold job_completed in Hdb'. cbn [db] in Hdb'. injection Hdb' as <-.
    by rewrite !get_collection_put, !decide_False by done. }
  rewrite Hfree'. reflexivity.
Qed.

(** ** [list_deployments] *)

(** X15: for a limit [N >= 0], [GET /api/deployments] answers with at most
    [N] records; each has no [_id] entry and has under [id] the string form
    of the identifier of a stored Deployment record. *)
Theorem list_deployments_bounded_public (container_repr : value -> string)
    (limit : Z) (d : Database) (j : list write) :
  0 <= limit ->
  let w := {| db := Some d; journal := j |} in
  exists docs : list document,
    route 200 (list_deployments container_repr limit) w = (Success 200 docs, w)
    /\ Z.of_nat (List.length docs) <= limit
    /\ Forall (fun doc =>
                 doc !! "_id" = None
                 /\ exists o fields,
                     get_collection d "deployment" !! o = Some fields
                     /\ doc !! "id" = Some (VStr (ObjectId.to_str o)))
              docs.
Proof.
  intros Hlimit w.
  exists (_to_public container_repr <$> find_limit d "deployment" (Z.to_nat limit)).
  split; [reflexivity|]. split.
  - rewrite length_fmap.
    pose proof (find_limit_length d "deployment" (Z.to_nat limit)). lia.
  - apply Forall_fmap.
    eapply Forall_impl; [apply find_limit_stored|].
    intros doc (o & fields & Hstored & ->). cbn.
    destruct (to_public_stored_fields container_repr o fields) as [Hid Hnoid].
    split; [exact Hnoid|]. exists o, fields. split; [exact Hstored | exact Hid].
Qed.

(** ** [test_database], field by field *)

Lemma getenv_truthy_flag (environ : gmap string string) (key : string) :
  (if getenv_truthy environ key then "✅ Set" else "❌ Not Set")
  = env_flag environ key.
Proof.
  unfold getenv_truthy, env_flag. by destruct (environ !! key) as [[|c s]|].
Qed.

(** X16: in the answer of [GET /test] the entries [database_url] and
    [database_name] tell only whether [DATABASE_URL] and [DATABASE_NAME] are
    set to a non-empty value, whatever the state of the connection: the
    name of the database never appears. *)
Theorem test_database_environment (environ : gmap string string)
    (fault : option string) (w : world) :
  exists response : document,
    (test_database environ fault w).1 = Ok response
    /\ response !! "database_url" = Some (VStr (env_flag environ "DATABASE_URL"))
    /\ response !! "database_name"
       = Some (VStr (env_flag environ "DATABASE_NAME")).
Proof.
  eexists. split; [reflexivity|].
  rewrite <- !getenv_truthy_flag. split.
  - rewrite lookup_insert_ne by done. apply lookup_insert_eq.
  - apply lookup_insert_eq.
Qed.

(** X17: the answer of [GET /test] lists at most ten collections, each one
    a collection of the store, and none when the connection is absent or
    the listing raises; [connection_status] is "Connected" exactly when
    [db] is present. *)
Theorem test_database_collections (environ : gmap string string)
    (fault : option string) (w : world) :
  exists (response : document) (names : list string),
    (test_database environ fault w).1 = Ok response
    /\ response !! "collections" = Some (VList (VStr <$> names))
    /\ (List.length names <= 10)%nat
    /\ match db w, fault with
       | Some d, None =>
           names = take 10 (collection_names d)
           /\ Forall (fun n => is_Some (db_collections d !! n)) names
       | _, _ => names = []
       end
    /\ response !! "connection_status"
       = Some (VStr match db w with
                    | Some _ => "Connected"
                    | None => "Not Connected"
                    end).
Proof.
  unfold test_database, test_outer_try, test_inner_try, list_collection_names.
  destruct (db w) as [d|], fault as [msg|]; cbn [fst].
  - eexists _, []. split; [reflexivity|]. split.
    { rewrite !lookup_insert_ne by done. reflexivity. }
    split; [cbn; lia|]. split; [reflexivity|].
    rewrite !lookup_insert_ne by done. apply lookup_insert_eq.
  - eexists _, (take 10 (collection_names d)). split; [reflexivity|]. split.
    { rewrite !lookup_insert_ne by done. apply lookup_insert_eq. }
    split; [rewrite length_take; lia|]. split.
    { split; [reflexivity|]. apply Forall_take, Forall_forall.
      intros n Hn. unfold collection_names in Hn.
      apply list_elem_of_fmap in Hn as ([n' c] & -> & Hin).
      apply elem_of_map_to_list in Hin. cbn. eauto. }
    rewrite !lookup_insert_ne by done. apply lookup_insert_eq.
  - eexists _, []. split; [reflexivity|]. split.
    { rewrite !lookup_insert_ne by done. reflexivity. }
    split; [cbn; lia|]. split; [reflexivity|].
    rewrite !lookup_insert_ne by done. reflexivity.
  - eexists _, []. split; [reflexivity|]. split.
    { rewrite !lookup_insert_ne by done. reflexivity. }
    split; [cbn; lia|]. split; [reflexivity|].
    rewrite !lookup_insert_ne by done. reflexivity.
Qed.

(** ** Collection names *)

(** X18: the names [GET /schema] lists are the collection names of the five
    schema classes, in order, and no two classes share a collection. *)
Theorem schema_lists_collection_names (w : world) :
  get_schema_definitions w
  = (Ok {[ "models" := VList ((fun c => VStr (_collection_name c))
                               <$> all_schema_classes) ]}, w)
  /\ forall c1 c2 : schema_class,
      _collection_name c1 = _collection_name c2 -> c1 = c2.
Proof.
  split; [reflexivity|].
  intros [] []; vm_compute; congruence.
Qed.

(** ** The further statements at sample data *)

Lemma deploy_model_record_witness :
  let w := {| db := Some sample_store; journal := [] |} in
  let w' := (deploy_model sample_environ 7 sample_deploy_request w).2 in
  let body : document := {[ "deployment_id" := VStr "000000000000000000000007" ]} in
  deploy_model sample_environ 7 sample_deploy_request w = (Ok body, w')
  /\ exists (d' : Database) (fields : document),
      db w' = Some d'
      /\ get_collection d' "deployment" !! ObjectId.generate 7 = Some fields
      /\ body !! "deployment_id"
         = Some (VStr (ObjectId.to_str (ObjectId.generate 7)))
      /\ fields !! "model_id" = Some (VStr (model_id sample_deploy_request))
      /\ fields !! "status" = Some (VStr "active")
      /\ fields !! "url"
         = Some (VStr (default "" (sample_environ !! "PUBLIC_BACKEND_URL")
                       +:+ "/serve/" +:+ model_id sample_deploy_request)).
Proof.
  intros w w' body.
  assert (H : deploy_model sample_environ 7 sample_deploy_request w = (Ok body, w'))
    by (vm_compute; reflexivity).
  split; [exact H|].
  exact (deploy_model_record sample_environ 7 sample_deploy_request w w' body H).
Defined.

Lemma deploy_model_given_name_witness :
  let req := {| model_id := sample_model_id; name := Some "production" |} in
  let w := {| db := Some sample_store; journal := [] |} in
  let w' := (deploy_model sample_environ 7 req w).2 in
  let body : document := {[ "deployment_id" := VStr "000000000000000000000007" ]} in
  deploy_model sample_environ 7 req w = (Ok body, w')
  /\ exists (d' : Database) (fields : document),
      db w' = Some d'
      /\ get_collection d' "deployment" !! ObjectId.generate 7 = Some fields
      /\ fields !! "name" = Some (VStr "production").
Proof.
  intros req w w' body.
  assert (H : deploy_model sample_environ 7 req w = (Ok body, w'))
    by (vm_compute; reflexivity).
  split; [exact H|].
  exact (deploy_model_given_name sample_environ 7 req w w' body H).
Defined.

Lemma serve_model_unknown_model_witness :
  ObjectId.of_str "0000000000000000000000ff" = Some 255%N
  /\ get_collection sample_store "modelspec" !! 255%N = None
  /\ route 200 (serve_model plain_repr "0000000000000000000000ff" None)
       {| db := Some sample_store; journal := [] |}
     = (Failure 404 "Model not found",
        {| db := Some sample_store; journal := [] |}).
Proof.
  assert (H1 : ObjectId.of_str "0000000000000000000000ff" = Some 255%N)
    by (vm_compute; reflexivity).
  assert (H2 : get_collection sample_store "modelspec" !! 255%N = None)
    by (vm_compute; reflexivity).
  split; [exact H1|]. split; [exact H2|].
  exact (serve_model_unknown_model plain_repr "0000000000000000000000ff" None
           sample_store [] 255%N H1 H2).
Defined.

Lemma serve_model_answer_witness :
  let w := {| db := Some sample_store; journal := [] |} in
  let fields := model_dump (generated_model sample_request "Prompt Model") in
  ObjectId.of_str sample_model_id = Some 2%N
  /\ get_collection sample_store "modelspec" !! 2%N = Some fields
  /\ route 200 (serve_model plain_repr sample_model_id (Some "hi")) w
     = (Success 200
          {[ "model_id" := VStr sample_model_id; "status" := VStr "ok";
             "output" :=
               VStr ("Model '" +:+ shown_name plain_repr fields
                     +:+ "' responded to: " +:+ "hi") ]},
        w)
  /\ (forall n : string,
         fields !! "name" = Some (VStr n) -> shown_name plain_repr fields = n)
  /\ (fields !! "name" = None -> shown_name plain_repr fields = "Model").
Proof.
  intros w fields.
  assert (H1 : ObjectId.of_str sample_model_id = Some 2%N)
    by (vm_compute; reflexivity).
  assert (H2 : get_collection sample_store "modelspec" !! 2%N = Some fields)
    by (vm_compute; reflexivity).
  split; [exact H1|]. split; [exact H2|].
  exact (serve_model_answer plain_repr sample_model_id (Some "hi") sample_store
           [] 2%N fields H1 H2).
Defined.

Lemma generate_model_stored_model_witness :
  let w := {| db := Some empty_store; journal := [] |} in
  let w' := (generate_model 1 2 named_request w).2 in
  let body : document :=
    {[ "job_id" := VStr "000000000000000000000001";
       "model_id" := VStr "000000000000000000000002" ]} in
  generate_model 1 2 named_request w = (Ok body, w')
  /\ exists (d' : Database) (model : document) (n : string),
      db w' = Some d'
      /\ get_collection d' "modelspec" !! ObjectId.generate 2 = Some model
      /\ model !! "name" = Some (VStr n)
      /\ model !! "prompt" = Some (VStr (prompt named_request))
      /\ model !! "version" = Some (VStr "v1")
      /\ model !! "parameters"
         = Some (VDict (map_to_list (default ∅ (parameters named_request))))
      /\ (parameters named_request = None -> n = "Prompt Model")
      /\ (forall p, parameters named_request = Some p -> p !! "name" = None ->
                    n = "Prompt Model")
      /\ (forall p v, parameters named_request = Some p -> p !! "name" = Some v ->
                      v = VStr n).
Proof.
  intros w w' body.
  assert (H : generate_model 1 2 named_request w = (Ok body, w'))
    by (vm_compute; reflexivity).
  split; [exact H|].
  exact (generate_model_stored_model 1 2 named_request w w' body H).
Defined.

Lemma generate_model_stored_job_witness :
  let w := {| db := Some empty_store; journal := [] |} in
  let w' := (generate_model 1 2 sample_request w).2 in
  let body : document :=
    {[ "job_id" := VStr "000000000000000000000001";
       "model_id" := VStr "000000000000000000000002" ]} in
  generate_model 1 2 sample_request w = (Ok body, w')
  /\ exists (d' : Database) (job model : document),
      db w' = Some d'
      /\ body !! "job_id" = Some (VStr (ObjectId.to_str (ObjectId.generate 1)))
      /\ body !! "model_id" = Some (VStr (ObjectId.to_str (ObjectId.generate 2)))
      /\ get_collection d' "generationjob" !! ObjectId.generate 1 = Some job
      /\ job !! "prompt" = Some (VStr (prompt sample_request))
      /\ job !! "status" = Some (VStr "completed")
      /\ job !! "model_id" = body !! "model_id"
      /\ journal w'
         = journal w
           ++ [Inserted "generationjob" (ObjectId.generate 1)
                 (model_dump (running_job sample_request));
               Inserted "modelspec" (ObjectId.generate 2) model;
               Updated "generationjob" (ObjectId.generate 1)
                 (completed_fields (ObjectId.to_str (ObjectId.generate 2)))].
Proof.
  intros w w' body.
  assert (H : generate_model 1 2 sample_request w = (Ok body, w'))
    by (vm_compute; reflexivity).
  split; [exact H|].
  exact (generate_model_stored_job 1 2 sample_request w w' body H).
Defined.

Lemma generated_model_is_served_witness :
  let w := {| db := Some empty_store; journal := [] |} in
  let w' := (generate_model 1 2 named_request w).2 in
  let body : document :=
    {[ "job_id" := VStr "000000000000000000000001";
       "model_id" := VStr "000000000000000000000002" ]} in
  generate_model 1 2 named_request w = (Ok body, w')
  /\ exists (mid n : string),
      body !! "model_id" = Some (VStr mid)
      /\ requested_name named_request = VStr n
      /\ route 200 (serve_model plain_repr mid None) w'
         = (Success 200
              {[ "model_id" := VStr mid; "status" := VStr "ok";
                 "output" :=
                   VStr ("Model '" +:+ n +:+ "' responded to: "
                         +:+ PyStr.or_else None "ping") ]},
            w').
Proof.
  intros w w' body.
  assert (H : generate_model 1 2 named_request w = (Ok body, w'))
    by (vm_compute; reflexivity).
  split; [exact H|].
  exact (generated_model_is_served plain_repr 1 2 named_request None w w' body H).
Defined.

Lemma generated_model_is_deployable_witness :
  let w := {| db := Some empty_store; journal := [] |} in
  let w' := (generate_model 1 2 sample_request w).2 in
  let body : document :=
    {[ "job_id" := VStr "000000000000000000000001";
       "model_id" := VStr "000000000000000000000002" ]} in
  generate_model 1 2 sample_request w = (Ok body, w')
  /\ db w = Some empty_store
  /\ get_collection empty_store "deployment" !! ObjectId.generate 7 = None
  /\ exists mid : string,
      body !! "model_id" = Some (VStr mid)
      /\ (route 201
            (deploy_model sample_environ 7 {| model_id := mid; name := None |})
            w').1
         = Success 201
             {[ "deployment_id" := VStr (ObjectId.to_str (ObjectId.generate 7)) ]}.
Proof.
  intros w w' body.
  assert (H1 : generate_model 1 2 sample_request w = (Ok body, w'))
    by (vm_compute; reflexivity).
  assert (H2 : db w = Some empty_store) by reflexivity.
  assert (H3 : get_collection empty_store "deployment" !! ObjectId.generate 7
               = None) by (vm_compute; reflexivity).
  split; [exact H1|]. split; [exact H2|]. split; [exact H3|].
  exact (generated_model_is_deployable sample_environ 1 2 7 sample_request None
           w w' empty_store body H1 H2 H3).
Defined.

Lemma list_deployments_bounded_public_witness :
  0 <= 1
  /\ size (get_collection crowded_store "deployment") = 2%nat
  /\ exists docs : list document,
      route 200 (list_deployments plain_repr 1)
        {| db := Some crowded_store; journal := [] |}
      = (Success 200 docs, {| db := Some crowded_store; journal := [] |})
      /\ List.length docs = 1%nat
      /\ Z.of_nat (List.length docs) <= 1
      /\ Forall (fun doc =>
                   doc !! "_id" = None
                   /\ exists o fields,
                       get_collection crowded_store "deployment" !! o = Some fields
                       /\ doc !! "id" = Some (VStr (ObjectId.to_str o)))
                docs.
Proof.
  assert (H : 0 <= 1) by lia.
  split; [exact H|]. split; [vm_compute; reflexivity|].
  destruct (list_deployments_bounded_public plain_repr 1 crowded_store [] H)
    as (docs & Hrun & Hlen & Hall).
  exists docs. split; [exact Hrun|]. split; [|split; [exact Hlen | exact Hall]].
  assert (Hone : forall r : http_response (list document) * world,
             route 200 (list_deployments plain_repr 1)
               {| db := Some crowded_store; journal := [] |} = r ->
             match r.1 with
             | Success _ l => List.length l = 1%nat
             | _ => False
             end) by (intros r <-; vm_compute; reflexivity).
  exact (Hone _ Hrun).
Defined.

Lemma generate_model_success_witness :
  let w := {| db := Some empty_store; journal := [] |} in
  let job_id := ObjectId.to_str (ObjectId.generate 1) in
  let model_id := ObjectId.to_str (ObjectId.generate 2) in
  get_collection empty_store "generationjob" !! ObjectId.generate 1 = None
  /\ get_collection empty_store "modelspec" !! ObjectId.generate 2 = None
  /\ requested_name sample_request = VStr "Prompt Model"
  /\ exists (d' : Database) (model job : document),
      route 201 (generate_model 1 2 sample_request) w
      = (Success 201 {[ "job_id" := VStr job_id; "model_id" := VStr model_id ]},
         job_completed 1 2 sample_request "Prompt Model" empty_store [])
      /\ db (job_completed 1 2 sample_request "Prompt Model" empty_store [])
         = Some d'
      /\ find_one d' "modelspec" (ObjectId.generate 2) = Some model
      /\ model !! "status" = Some (VStr "ready")
      /\ model !! "artifacts"
         = Some (VList [VStr "weights://mock/model.bin";
                        VStr "tokenizer://mock/vocab.json"])
      /\ find_one d' "generationjob" (ObjectId.generate 1) = Some job
      /\ job !! "status" = Some (VStr "completed")
      /\ job !! "model_id" = Some (VStr model_id).
Proof.
  intros w job_id model_id.
  assert (H1 : get_collection empty_store "generationjob" !! ObjectId.generate 1
               = None) by (vm_compute; reflexivity).
  assert (H2 : get_collection empty_store "modelspec" !! ObjectId.generate 2
               = None) by (vm_compute; reflexivity).
  assert (H3 : requested_name sample_request = VStr "Prompt Model")
    by reflexivity.
  split; [exact H1|]. split; [exact H2|]. split; [exact H3|].
  exact (generate_model_success 1 2 sample_request "Prompt Model" empty_store []
           H1 H2 H3).
Defined.
